(** * The prediction pipeline of [trainedmodels/alzaimerpark.py]

    A shallow embedding of the image validator, the preprocessor, the
    inference wrapper and the class-to-metadata mapping of the prediction
    route, together with the properties the specification states about them.

    Modelling conventions.
    - Python exceptions are values [Exception cls msg]: the class name and
      [str(e)].  Code that may raise lives in the monad [M], which also
      records the observable events of a call (lines written with
      [logger.error], forward passes of the model) in the order they happen.
    - A NumPy array is its shape and its elements in row-major order.  The
      elements have the type NumPy gives the mode of the Pillow image:
      booleans (mode 1), unsigned bytes (L, P, LA, RGB, RGBA, CMYK, ...),
      unsigned 16-bit integers (I;16), signed 32-bit integers (I) or 32-bit
      floats (F).
    - The colour statistic of the validator is computed in IEEE binary64,
      as [float] is in NumPy: [float64] below is the arithmetic of
      [SpecFloat] at precision 53, rounding to nearest even.
    - The probabilities of the model are only compared with each other; they
      are modelled by rationals.
    - Pillow (decoding, resizing), the exception OpenCV raises for an array
      it does not convert, and the trained model are outside the
      repository: they are variables of the sections below, constrained only
      by what their interface promises. *)

From Stdlib Require Import String Ascii.
From Stdlib Require Import Strings.Byte.
From Stdlib Require Import DecimalString.
From Stdlib Require Import List ZArith QArith Qabs Bool Lia Arith.
From Stdlib Require Import Floats.SpecFloat.
Import ListNotations.

Local Open Scope nat_scope.

(* ================================================================= *)
(** ** Exceptions, events and the pipeline monad *)

Module Py.

(** A Python exception: its class and its message, [str(e)]. *)
Inductive exn : Type :=
| Exception (cls : string) (msg : string).

Definition str (e : exn) : string :=
  match e with Exception _ msg => msg end.

Definition cls_of (e : exn) : string :=
  match e with Exception cls _ => cls end.

Definition ValueError (msg : string) : exn := Exception "ValueError" msg.
Definition IndexError (msg : string) : exn := Exception "IndexError" msg.
Definition KeyError (msg : string) : exn := Exception "KeyError" msg.
Definition cv2_error (msg : string) : exn := Exception "cv2.error" msg.

(** [str(n)] of a natural number, as an f-string or a NumPy message shows
    it. *)
Definition str_nat (n : nat) : string := NilEmpty.string_of_uint (Nat.to_uint n).

(** The outcome of an expression: a value or a raised exception. *)
Inductive result (A : Type) : Type :=
| Ok (a : A)
| Raise (e : exn).
Arguments Ok {A} a.
Arguments Raise {A} e.

Definition result_bind {A B : Type} (r : result A) (k : A -> result B)
  : result B :=
  match r with
  | Ok a => k a
  | Raise e => Raise e
  end.

End Py.
Import Py.

(** IEEE binary64, the [float] of Python and NumPy. *)
Module float64.

Definition prec : Z := 53.
Definition emax : Z := 1024.

Definition zero : spec_float := S754_zero false.

(** The float nearest to an integer; exact below 2^53. *)
Definition of_Z (z : Z) : spec_float := binary_normalize prec emax z 0 false.

(** A binary32 value as a binary64 value: every one is representable. *)
Definition of_float32 (x : spec_float) : spec_float :=
  match x with
  | S754_finite s m e => binary_normalize prec emax (cond_Zopp s (Zpos m)) e s
  | _ => x
  end.

Definition add : spec_float -> spec_float -> spec_float := SFadd prec emax.
Definition sub : spec_float -> spec_float -> spec_float := SFsub prec emax.
Definition div : spec_float -> spec_float -> spec_float := SFdiv prec emax.
Definition abs : spec_float -> spec_float := SFabs.

(** [x < y]; false when either side is not a number. *)
Definition ltb : spec_float -> spec_float -> bool := SFltb.

End float64.

(** The elements of a NumPy array, in row-major order, by element type. *)
Inductive buffer : Type :=
| bools (l : list bool)
| uint8s (l : list byte)
| uint16s (l : list N)
| int32s (l : list Z)
| float32s (l : list spec_float).

Record ndarray : Type := mk_ndarray {
  shape : list nat;
  data : buffer
}.

(** What a call does besides returning: the pipeline logs errors and runs the
    model. *)
Inductive event : Type :=
| logger_error (msg : string)
| MODEL_predict (x : ndarray).

(** [M A]: the events of a computation, oldest first, and its outcome. *)
Definition M (A : Type) : Type := (list event * result A)%type.

Definition ret {A : Type} (a : A) : M A := ([], Ok a).

Definition raise {A : Type} (e : exn) : M A := ([], Raise e).

Definition emit (ev : event) : M unit := ([ev], Ok tt).

Definition lift {A : Type} (r : result A) : M A := ([], r).

Definition bind {A B : Type} (m : M A) (k : A -> M B) : M B :=
  match m with
  | (t, Ok a) => let (t', r) := k a in (t ++ t', r)
  | (t, Raise e) => (t, Raise e)
  end.

(** [try: body except Exception as e: handler e]. *)
Definition try_except {A : Type} (body : M A) (handler : exn -> M A) : M A :=
  match body with
  | (t, Ok a) => (t, Ok a)
  | (t, Raise e) => let (t', r) := handler e in (t ++ t', r)
  end.

Definition events {A : Type} (m : M A) : list event := fst m.
Definition outcome {A : Type} (m : M A) : result A := snd m.

Declare Scope py_scope.
Delimit Scope py_scope with py.
Notation "x <- m ;; k" := (bind m (fun x => k))
  (at level 61, m at next level, right associativity) : py_scope.
Notation "m ;;; k" := (bind m (fun _ => k))
  (at level 61, right associativity) : py_scope.

(* ================================================================= *)
(** ** The parts of NumPy and OpenCV the module uses *)

Module np.

Inductive dtype : Type := bool_ | uint8 | uint16 | int32 | float32.

Definition dtype_of (b : buffer) : dtype :=
  match b with
  | bools _ => bool_
  | uint8s _ => uint8
  | uint16s _ => uint16
  | int32s _ => int32
  | float32s _ => float32
  end.

(** The number of elements. *)
Definition size (b : buffer) : nat :=
  match b with
  | bools l => List.length l
  | uint8s l => List.length l
  | uint16s l => List.length l
  | int32s l => List.length l
  | float32s l => List.length l
  end.

(** Selecting, repeating or reordering elements, whatever their type. *)
Definition rearrange (f : forall A : Type, list A -> list A) (b : buffer)
  : buffer :=
  match b with
  | bools l => bools (f _ l)
  | uint8s l => uint8s (f _ l)
  | uint16s l => uint16s (f _ l)
  | int32s l => int32s (f _ l)
  | float32s l => float32s (f _ l)
  end.

(** One element of an array, with its type. *)
Inductive scalar : Type :=
| of_bool (x : bool)
| of_uint8 (x : byte)
| of_uint16 (x : N)
| of_int32 (x : Z)
| of_float32 (x : spec_float).

Definition elements (b : buffer) : list scalar :=
  match b with
  | bools l => map of_bool l
  | uint8s l => map of_uint8 l
  | uint16s l => map of_uint16 l
  | int32s l => map of_int32 l
  | float32s l => map of_float32 l
  end.

Definition ndim (a : ndarray) : nat := length (shape a).

(** [a.shape[-1]]. *)
Definition shape_last (a : ndarray) : nat := last (shape a) 0.

(** Every [c]-th element of a row-major buffer; [i] elements are skipped
    before the first one taken. *)
Fixpoint every {A : Type} (c i : nat) (l : list A) : list A :=
  match l with
  | [] => []
  | x :: t =>
      match i with
      | O => x :: every c (c - 1) t
      | S j => every c j t
      end
  end.

Definition take_channel (c k : nat) (l : buffer) : buffer :=
  rearrange (fun A => every c k) l.

(** [a[:, :, k]] for an array [a] of shape [(h, w, c)] with elements [l]. *)
Definition channel (c : nat) (l : buffer) (k : nat) : result buffer :=
  if k <? c then Ok (take_channel c k l)
  else Raise (IndexError ("index " ++ str_nat k
                          ++ " is out of bounds for axis 2 with size "
                          ++ str_nat c)).

(** [x.astype(float)]. *)
Definition astype_float (x : buffer) : list spec_float :=
  match x with
  | bools l => map (fun v : bool => float64.of_Z (if v then 1 else 0)) l
  | uint8s l => map (fun v => float64.of_Z (Z.of_N (Byte.to_N v))) l
  | uint16s l => map (fun v => float64.of_Z (Z.of_N v)) l
  | int32s l => map float64.of_Z l
  | float32s l => map float64.of_float32 l
  end.

(** [x - y] on arrays of one shape. *)
Fixpoint subtract (x y : list spec_float) : list spec_float :=
  match x, y with
  | a :: x', b :: y' => float64.sub a b :: subtract x' y'
  | _, _ => []
  end.

(** [np.abs(x)]. *)
Definition abs (x : list spec_float) : list spec_float := map float64.abs x.

(** [np.add.reduce(x)], the sum inside [np.mean].  NumPy adds in pairs
    rather than from left to right; the validator sums absolute differences
    of bytes, whole numbers up to 255, and Pillow refuses images anywhere
    near 2^53 / 255 pixels, so every partial sum is a whole number below
    2^53 and is exact in either order. *)
Definition add_reduce (x : list spec_float) : spec_float :=
  match x with
  | [] => float64.zero
  | a :: t => fold_left float64.add t a
  end.

(** [np.mean(x)]: the sum divided by the number of elements, rounded once;
    not a number for an array without elements. *)
Definition mean (x : list spec_float) : spec_float :=
  float64.div (add_reduce x) (float64.of_Z (Z.of_nat (List.length x))).

(** The sum of a row of probabilities. *)
Definition sum (l : list Q) : Q := fold_right Qplus 0%Q l.

(** [np.expand_dims(a, axis=0)]. *)
Definition expand_dims0 (a : ndarray) : ndarray :=
  mk_ndarray (1 :: shape a) (data a).

(** First index of the largest element of a row, scanning left to right and
    replacing the candidate only by a strictly larger element. *)
Fixpoint argmax_from (best : Q) (ibest i : nat) (l : list Q) : nat :=
  match l with
  | [] => ibest
  | x :: t =>
      if Qlt_le_dec best x then argmax_from x i (S i) t
      else argmax_from best ibest (S i) t
  end.

Definition argmax (row : list Q) : result nat :=
  match row with
  | [] => Raise (ValueError "attempt to get argmax of an empty sequence")
  | x :: t => Ok (argmax_from x 0 1 t)
  end.

(** [np.argmax(prd, axis=1)]. *)
Fixpoint argmax_axis1 (prd : list (list Q)) : result (list nat) :=
  match prd with
  | [] => Ok []
  | row :: rest =>
      result_bind (argmax row) (fun i =>
      result_bind (argmax_axis1 rest) (fun ids => Ok (i :: ids)))
  end.

(** [ids[0]]. *)
Definition item0 (ids : list nat) : result nat :=
  match ids with
  | [] => Raise (IndexError "index 0 is out of bounds for axis 0 with size 0")
  | i :: _ => Ok i
  end.

Fixpoint max_from (best : Q) (l : list Q) : Q :=
  match l with
  | [] => best
  | x :: t => if Qlt_le_dec best x then max_from x t else max_from best t
  end.

(** [np.max(prd)]: the largest element of the whole array. *)
Definition max (prd : list (list Q)) : result Q :=
  match concat prd with
  | [] => Raise (ValueError "zero-size array to reduction operation maximum which has no identity")
  | x :: t => Ok (max_from x t)
  end.

End np.

Module cv2.

Inductive code : Type := COLOR_GRAY2RGB | COLOR_RGBA2RGB.

(** One grey value becomes three equal channel values. *)
Definition gray2rgb {A : Type} (l : list A) : list A :=
  flat_map (fun v => [v; v; v]) l.

(** The fourth value of every pixel is dropped. *)
Fixpoint rgba2rgb {A : Type} (l : list A) : list A :=
  match l with
  | r :: g :: b :: _ :: rest => r :: g :: b :: rgba2rgb rest
  | _ => []
  end.

(** What a conversion does to the elements. *)
Definition convert (c : code) (l : buffer) : buffer :=
  match c with
  | COLOR_GRAY2RGB => np.rearrange (@gray2rgb) l
  | COLOR_RGBA2RGB => np.rearrange (@rgba2rgb) l
  end.

(** The element types [cvtColor] converts: 8-bit and 16-bit unsigned and
    32-bit float.  An array of booleans or of 32-bit integers is refused. *)
Definition depth_supported (d : np.dtype) : bool :=
  match d with
  | np.uint8 | np.uint16 | np.float32 => true
  | np.bool_ | np.int32 => false
  end.

Section Binding.

(** The exception raised for an array that is not converted.  Its class
    and text depend on the version of OpenCV. *)
Variable refusal : code -> ndarray -> exn.

(** [cv2.cvtColor(a, code)] for the two conversions of the module, which
    calls it on arrays of 150 x 150 pixels.  An array with the wrong number
    of channels or with elements of an unsupported type is refused. *)
Definition cvtColor (a : ndarray) (c : code) : result ndarray :=
  if depth_supported (np.dtype_of (data a)) then
    match c, shape a with
    | COLOR_GRAY2RGB, [h; w] => Ok (mk_ndarray [h; w; 3] (convert c (data a)))
    | COLOR_RGBA2RGB, [h; w; 4] => Ok (mk_ndarray [h; w; 3] (convert c (data a)))
    | _, _ => Raise (refusal c a)
    end
  else Raise (refusal c a).

End Binding.

End cv2.

(** Pillow images, as far as the module looks at them: the size and the
    band values of the pixels, row by row.  A mode of one band (1, L, P, I,
    I;16, F) has elements of the type of the mode; a mode of several bands
    (2 for LA, 3 for RGB, 4 for RGBA and CMYK) has a byte per band. *)
Module PIL.

Inductive raster : Type :=
| single_band (values : buffer)
| multi_band (n : nat) (values : list byte).

Record Image : Type := mk_Image {
  width : nat;
  height : nat;
  content : raster
}.

Definition bands (im : Image) : nat :=
  match content im with
  | single_band _ => 1
  | multi_band n _ => n
  end.

Definition pixels (im : Image) : buffer :=
  match content im with
  | single_band values => values
  | multi_band _ values => uint8s values
  end.

(** [np.array(image)]: two dimensions for a single band, three otherwise. *)
Definition np_array (im : Image) : ndarray :=
  mk_ndarray
    (if bands im =? 1 then [height im; width im]
     else [height im; width im; bands im])
    (pixels im).

End PIL.
Import PIL.

(** Python dictionaries with a fixed set of entries, in source order. *)
Module dict.

Section Lookup.
Context {K V : Type} (eqb : K -> K -> bool).

Fixpoint find (d : list (K * V)) (k : K) : option V :=
  match d with
  | [] => None
  | (k', v) :: rest => if eqb k k' then Some v else find rest k
  end.

(** [d.get(k, default)]. *)
Definition get (d : list (K * V)) (k : K) (default : V) : V :=
  match find d k with
  | Some v => v
  | None => default
  end.

(** [d[k]]. *)
Definition getitem (d : list (K * V)) (k : K) (shown : string) : result V :=
  match find d k with
  | Some v => Ok v
  | None => Raise (KeyError shown)
  end.
End Lookup.

End dict.

(* ================================================================= *)
(** ** trainedmodels/alzaimerpark.py *)

Local Open Scope string_scope.
Local Open Scope py_scope.

(** The dictionary returned by the validator. *)
Record validation : Type := mk_validation {
  is_valid : bool;
  reason : string
}.

(** The dictionary returned by [image_prediction]. *)
Record prediction_result : Type := mk_prediction_result {
  prediction : string;
  confidence : Q;
  class_id : Z;
  raw_probabilities : list (list Q)
}.

(** A loaded Keras model: its forward pass on a batch, one output row per
    element of the batch, or the exception the runtime raises. *)
Definition Model : Type := ndarray -> result (list (list Q)).

(** [MODEL.predict(image_array, verbose=0)]. *)
Definition MODEL_predict_call (m : Model) (x : ndarray) : M (list (list Q)) :=
  emit (MODEL_predict x) ;;; lift (m x).

(** The dictionary [class_mapping] of [image_prediction]; the module repeats
    it as [CLASS_MAPPING]. *)
Definition CLASS_MAPPING : list (Z * string) :=
  [(0%Z, "CONTROL"); (1%Z, "AD"); (2%Z, "PD")].

(** [class_mapping.get(class_id, "Unknown")]. *)
Definition class_label (id : Z) : string :=
  dict.get Z.eqb CLASS_MAPPING id "Unknown".

(** [np.mean(np.abs(r.astype(float) - g.astype(float))) + ... (g, b)
    + ... (r, b)], added from left to right. *)
Definition color_diff (r g b : buffer) : spec_float :=
  let mean_abs_diff (x y : buffer) :=
    np.mean (np.abs (np.subtract (np.astype_float x) (np.astype_float y))) in
  float64.add (float64.add (mean_abs_diff r g) (mean_abs_diff g b))
              (mean_abs_diff r b).

Definition color_photograph_reason : string :=
  "This appears to be a color photograph. Please upload a medical scan (MRI, CT, X-ray, etc.).".

Section Pipeline.

(** [Image.open(io.BytesIO(file_bytes))], including the decoding of the
    pixel data. *)
Variable Image_open : list byte -> result Image.

(** [image.resize(size)], with [size = (width, height)]. *)
Variable resize : nat * nat -> Image -> Image.

(** The exception of [cv2.cvtColor] for an array it does not convert. *)
Variable refusal : cv2.code -> ndarray -> exn.

(** The body of the [try] block of the validator.  The test
    [len(image_array.shape) == 3] is the match on the shape. *)
Definition validate_body (file_bytes : list byte) : M validation :=
  image <- lift (Image_open file_bytes) ;;
  let image_array := np_array image in
  match shape image_array with
  | [_; _; c] =>
      r <- lift (np.channel c (data image_array) 0) ;;
      g <- lift (np.channel c (data image_array) 1) ;;
      b <- lift (np.channel c (data image_array) 2) ;;
      if float64.ltb (float64.of_Z 20) (color_diff r g b) then
        ret (mk_validation false color_photograph_reason)
      else
        ret (mk_validation true "Image accepted for analysis.")
  | _ =>
      ret (mk_validation true "Image accepted for analysis.")
  end.

Definition validate_image_for_medical_scan (file_bytes : list byte)
  : M validation :=
  try_except (validate_body file_bytes)
    (fun e =>
       emit (logger_error ("Image validation error: " ++ str e)) ;;;
       ret (mk_validation true "Validation skipped due to error.")).

(** The body of the [try] block of the preprocessor. *)
Definition preprocess_body (file_bytes : list byte) : M ndarray :=
  validation_result <- validate_image_for_medical_scan file_bytes ;;
  (if negb (is_valid validation_result)
   then raise (ValueError (reason validation_result))
   else ret tt) ;;;
  opened <- lift (Image_open file_bytes) ;;
  let image := resize (150, 150) opened in
  let image_array := np_array image in
  image_array <-
    (if (np.ndim image_array =? 2)%nat then
       lift (cv2.cvtColor refusal image_array cv2.COLOR_GRAY2RGB)
     else if (np.shape_last image_array =? 4)%nat then
       lift (cv2.cvtColor refusal image_array cv2.COLOR_RGBA2RGB)
     else ret image_array) ;;
  ret (np.expand_dims0 image_array).

Definition preprocess_image_from_bytes (file_bytes : list byte) : M ndarray :=
  try_except (preprocess_body file_bytes)
    (fun e =>
       emit (logger_error ("Image preprocessing error: " ++ str e)) ;;;
       raise (ValueError ("Failed to preprocess image: " ++ str e))).

End Pipeline.

(** The body of the [try] block of [image_prediction].  [MODEL] is the
    module's global: [None] until a load succeeds. *)
Definition prediction_body (MODEL : option Model) (image_array : ndarray)
  : M prediction_result :=
  match MODEL with
  | None => raise (ValueError "Model not loaded")
  | Some m =>
      prd <- MODEL_predict_call m image_array ;;
      ids <- lift (np.argmax_axis1 prd) ;;
      id <- lift (np.item0 ids) ;;
      conf <- lift (np.max prd) ;;
      let name := class_label (Z.of_nat id) in
      ret (mk_prediction_result name conf (Z.of_nat id) prd)
  end.

Definition image_prediction (MODEL : option Model) (image_array : ndarray)
  : M prediction_result :=
  try_except (prediction_body MODEL image_array)
    (fun e =>
       emit (logger_error ("Prediction error: " ++ str e)) ;;;
       raise (ValueError ("Prediction failed: " ++ str e))).

Definition is_model_loaded (MODEL : option Model) : bool :=
  match MODEL with Some _ => true | None => false end.

(* ================================================================= *)
(** ** routes/prediction_routes.py: from a prediction to its description *)

Record details : Type := mk_details {
  name : string;
  full_name : string;
  description : string;
  recommendation : string
}.

Definition control_details : details :=
  mk_details "CONTROL" "Normal Brain Scan"
    "The brain scan appears normal with no signs of neurological disorders."
    "Continue regular health monitoring. Maintain a healthy lifestyle with proper diet, exercise, and mental stimulation.".

Definition ad_details : details :=
  mk_details "AD" "Alzheimer's Disease"
    "The scan shows patterns consistent with Alzheimer's disease, characterized by brain tissue changes."
    "Consult with a neurologist for comprehensive evaluation and potential treatment options. Early intervention may help manage symptoms.".

Definition pd_details : details :=
  mk_details "PD" "Parkinson's Disease"
    "The scan indicates patterns associated with Parkinson's disease, affecting movement and motor functions."
    "Schedule an appointment with a movement disorder specialist. Physical therapy and medication may help manage symptoms.".

Definition prediction_details : list (string * details) :=
  [("CONTROL", control_details); ("AD", ad_details); ("PD", pd_details)].

(** [prediction_details.get(prediction_class, prediction_details['CONTROL'])]:
    the default is looked up before [get] is called. *)
Definition current_prediction (prediction_class : string) : result details :=
  result_bind (dict.getitem String.eqb prediction_details "CONTROL" "'CONTROL'")
    (fun default =>
       Ok (dict.get String.eqb prediction_details prediction_class default)).

(** The description the route attaches to a class index: the label of
    [image_prediction] fed to the lookup of the route. *)
Definition details_of_class (id : Z) : result details :=
  current_prediction (class_label id).

(* ================================================================= *)
(** ** A concrete imaging back end

    An uncompressed container and nearest-neighbour resampling: an instance
    of the interface the pipeline assumes, on which it can be run. *)

Module Raw.

Definition nat_of_byte (b : byte) : nat := N.to_nat (Byte.to_N b).

Definition unidentified : exn :=
  Exception "UnidentifiedImageError" "cannot identify image file".

(** Samples of sixteen bits, the high byte first. *)
Fixpoint words (l : list byte) : list N :=
  match l with
  | hi :: lo :: rest => (Byte.to_N hi * 256 + Byte.to_N lo)%N :: words rest
  | _ => []
  end.

(** Header: kind, width, height; then the pixels.  Kind 0 is one band of
    one bit, a byte per pixel; kinds 1 to 4 are that many bands of eight
    bits; kind 16 is one band of sixteen bits. *)
Definition open (file_bytes : list byte) : result Image :=
  match file_bytes with
  | k :: w :: h :: px =>
      let k' := nat_of_byte k in
      let w' := nat_of_byte w in
      let h' := nat_of_byte h in
      if (k' =? 0)%nat then
        if (List.length px =? h' * w')%nat
        then Ok (mk_Image w' h'
                   (single_band
                      (bools (map (fun v => negb (Byte.eqb v "000")) px))))
        else Raise unidentified
      else if (k' =? 1)%nat then
        if (List.length px =? h' * w')%nat
        then Ok (mk_Image w' h' (single_band (uint8s px)))
        else Raise unidentified
      else if (k' <=? 4)%nat then
        if (List.length px =? h' * w' * k')%nat
        then Ok (mk_Image w' h' (multi_band k' px))
        else Raise unidentified
      else if (k' =? 16)%nat then
        if (List.length px =? h' * w' * 2)%nat
        then Ok (mk_Image w' h' (single_band (uint16s (words px))))
        else Raise unidentified
      else Raise unidentified
  | _ => Raise unidentified
  end.

(** The [n] values of the pixel in column [x] of row [y] of an image [w]
    pixels wide. *)
Definition pixel_at {A : Type} (d : A) (n w : nat) (l : list A) (x y : nat)
  : list A :=
  map (fun k => nth ((y * w + x) * n + k) l d) (seq 0 n).

(** The nearest pixel of the source for every pixel of the target. *)
Definition resample {A : Type} (d : A) (n w h w' h' : nat) (l : list A)
  : list A :=
  flat_map (fun y =>
     flat_map (fun x => pixel_at d n w l (x * w / w') (y * h / h'))
              (seq 0 w'))
     (seq 0 h').

Definition resize (size : nat * nat) (im : Image) : Image :=
  let (w', h') := size in
  let w := width im in
  let h := height im in
  mk_Image w' h'
    match content im with
    | single_band (bools l) =>
        single_band (bools (resample false 1 w h w' h' l))
    | single_band (uint8s l) =>
        single_band (uint8s (resample "000"%byte 1 w h w' h' l))
    | single_band (uint16s l) =>
        single_band (uint16s (resample 0%N 1 w h w' h' l))
    | single_band (int32s l) =>
        single_band (int32s (resample 0%Z 1 w h w' h' l))
    | single_band (float32s l) =>
        single_band (float32s (resample float64.zero 1 w h w' h' l))
    | multi_band n l =>
        multi_band n (resample "000"%byte n w h w' h' l)
    end.

(** A stand-in for the exception of OpenCV. *)
Definition refusal (c : cv2.code) (a : ndarray) : exn :=
  cv2_error "unsupported array".

End Raw.

(** The three answers of the validator. *)
Definition accepted : validation :=
  mk_validation true "Image accepted for analysis.".

Definition skipped : validation :=
  mk_validation true "Validation skipped due to error.".

Definition rejected : validation :=
  mk_validation false color_photograph_reason.






(** The channel step of the preprocessor on its own: what happens to
    [image_array] between [np.array] and [np.expand_dims]. *)
Definition convert_channels (refusal : cv2.code -> ndarray -> exn)
    (image_array : ndarray) : result ndarray :=
  if (np.ndim image_array =? 2)%nat then
    cv2.cvtColor refusal image_array cv2.COLOR_GRAY2RGB
  else if (np.shape_last image_array =? 4)%nat then
    cv2.cvtColor refusal image_array cv2.COLOR_RGBA2RGB
  else Ok image_array.

(** Whether the channel step goes through: an image of one or four bands
    is handed to OpenCV and must have elements of a type it converts. *)
Definition convertible (im : Image) : bool :=
  if ((bands im =? 1) || (bands im =? 4))%nat
  then cv2.depth_supported (np.dtype_of (pixels im))
  else true.

(** Files in the container of [Raw], used to run the pipeline. *)
Module Sample.

(** 2x2, RGB, every pixel (255, 0, 0). *)
Definition red_rgb : list byte :=
  ["003"; "002"; "002";
   "255"; "000"; "000";  "255"; "000"; "000";
   "255"; "000"; "000";  "255"; "000"; "000"]%byte.

(** 2x2, RGB, every pixel (128, 128, 128). *)
Definition gray_rgb : list byte :=
  ["003"; "002"; "002";
   "128"; "128"; "128";  "128"; "128"; "128";
   "128"; "128"; "128";  "128"; "128"; "128"]%byte.

(** 2x1, one band. *)
Definition gray_l : list byte :=
  ["001"; "002"; "001";  "010"; "200"]%byte.

(** 1x2, RGBA. *)
Definition gray_rgba : list byte :=
  ["004"; "001"; "002";
   "090"; "090"; "090"; "255";  "091"; "090"; "092"; "128"]%byte.

(** 1x1, grey with alpha (mode LA). *)
Definition gray_la : list byte :=
  ["002"; "001"; "001";  "100"; "255"]%byte.

(** 2x1, one band of one bit: a white and a black pixel. *)
Definition bilevel : list byte :=
  ["000"; "002"; "001";  "001"; "000"]%byte.

(** 1x1, one band of sixteen bits: the value 1000. *)
Definition gray_16 : list byte :=
  ["016"; "001"; "001";  "003"; "232"]%byte.


(** Not an image. *)
Definition garbage : list byte := ["000"; "001"]%byte.

(** A model that answers every element of a batch with one fixed row. *)
Definition constant_model (row : list Q) : Model :=
  fun x => Ok (repeat row (hd 0 (shape x))).

Definition probabilities : list Q := [1 # 5; 1 # 2; 3 # 10]%Q.

(** What [image_prediction] returns for that row. *)
Definition ad_result : prediction_result :=
  mk_prediction_result "AD" (1 # 2) 1 [probabilities].

(** A model that answers a batch of two with two different rows. *)
Definition two_row_model : Model :=
  fun _ => Ok [[3 # 5; 2 # 5; 0]%Q; [1 # 10; 9 # 10; 0]%Q].

(** An all-zero prepared tensor. *)
Definition zeros : ndarray :=
  mk_ndarray [1; 150; 150; 3]
    (uint8s (repeat "000"%byte (1 * 150 * 150 * 3))).

(** A batch of two all-zero images. *)
Definition zeros_pair : ndarray :=
  mk_ndarray [2; 150; 150; 3]
    (uint8s (repeat "000"%byte (2 * 150 * 150 * 3))).

End Sample.

(** The array the preprocessor hands over for a decoded image that has
    already been resized: the closed form of [convert_channels] followed by
    [np.expand_dims]. *)
Definition tensor_of (im : Image) : ndarray :=
  np.expand_dims0
    (if (bands im =? 1)%nat then
       mk_ndarray [height im; width im; 3]
         (cv2.convert cv2.COLOR_GRAY2RGB (pixels im))
     else if (bands im =? 4)%nat then
       mk_ndarray [height im; width im; 3]
         (cv2.convert cv2.COLOR_RGBA2RGB (pixels im))
     else
       mk_ndarray [height im; width im; bands im] (pixels im)).

(** The forward pass answers a batch of [n] inputs with [n] rows. *)
Definition one_row_per_input (m : Model) : Prop :=
  forall x prd, m x = Ok prd -> List.length prd = hd 0 (shape x).

(** A row is a distribution over the three classes, up to the tolerance of
    the specification. *)
Definition three_class_distribution (row : list Q) : Prop :=
  List.length row = 3 /\ (Qabs (np.sum row - 1) <= 1 # 10000)%Q.


(* ================================================================= *)
(** ** Beyond the prediction core: effects of the routes and the server

    The routes log through their own loggers, print, and call services
    outside the repository.  [Eff.W] is the monad [M] over this larger set
    of events; the events of the prediction core are embedded with
    [core]. *)

Inductive effect : Type :=
| core (e : event)
| print (msg : string)
| model_logger_info (msg : string)
| route_logger_info (msg : string)
| route_logger_error (msg : string)
| cloudinary_uploader_upload (file : list byte) (folder public_id resource_type : string).

Module Eff.

Definition W (A : Type) : Type := (list effect * result A)%type.

Definition ret {A : Type} (a : A) : W A := ([], Ok a).

Definition raise {A : Type} (e : exn) : W A := ([], Raise e).

Definition emit (ev : effect) : W unit := ([ev], Ok tt).

Definition lift {A : Type} (r : result A) : W A := ([], r).

(** A computation of the prediction core, run inside a route. *)
Definition of_core {A : Type} (m : M A) : W A := (map core (fst m), snd m).

Definition bind {A B : Type} (m : W A) (k : A -> W B) : W B :=
  match m with
  | (t, Ok a) => let (t', r) := k a in ((t ++ t')%list, r)
  | (t, Raise e) => (t, Raise e)
  end.

Definition try_except {A : Type} (body : W A) (handler : exn -> W A) : W A :=
  match body with
  | (t, Ok a) => (t, Ok a)
  | (t, Raise e) => let (t', r) := handler e in ((t ++ t')%list, r)
  end.

Definition effects {A : Type} (m : W A) : list effect := fst m.
Definition outcome {A : Type} (m : W A) : result A := snd m.

End Eff.

Declare Scope eff_scope.
Delimit Scope eff_scope with eff.
Notation "x <- m ;; k" := (Eff.bind m (fun x => k))
  (at level 61, m at next level, right associativity) : eff_scope.
Notation "m ;;; k" := (Eff.bind m (fun _ => k))
  (at level 61, right associativity) : eff_scope.

(** The string methods the routes use.  Strings are sequences of ASCII
    characters. *)
Module pystr.

Definition lower_char (c : ascii) : ascii :=
  let n := nat_of_ascii c in
  if ((65 <=? n) && (n <=? 90))%nat then ascii_of_nat (n + 32) else c.

(** [s.lower()]. *)
Fixpoint lower (s : string) : string :=
  match s with
  | EmptyString => EmptyString
  | String c t => String (lower_char c) (lower t)
  end.

(** [sub in s]. *)
Fixpoint contains (sub s : string) : bool :=
  if String.prefix sub s then true
  else match s with
       | EmptyString => false
       | String _ t => contains sub t
       end.

(** The split of [s] at its last ["."], if it has one. *)
Fixpoint rpartition_dot (s : string) : option (string * string) :=
  match s with
  | EmptyString => None
  | String c t =>
      match rpartition_dot t with
      | Some (before, after) => Some (String c before, after)
      | None => if Ascii.eqb c "." then Some (EmptyString, t) else None
      end
  end.

(** [s.rsplit('.', 1)]. *)
Definition rsplit_dot_1 (s : string) : list string :=
  match rpartition_dot s with
  | Some (before, after) => [before; after]
  | None => [s]
  end.

(** [parts[i]]. *)
Definition item (parts : list string) (i : nat) : result string :=
  match nth_error parts i with
  | Some p => Ok p
  | None => Raise (IndexError "list index out of range")
  end.

(** [not s] for a string or [None]. *)
Definition falsy (s : option string) : bool :=
  match s with
  | None => true
  | Some s => (s =? "")%string
  end.

End pystr.

Local Unset Elimination Schemes.

(** JSON values as Python sees them after [request.get_json()]. *)
Inductive json : Type :=
| JNull
| JBool (b : bool)
| JInt (z : Z)
| JFloat (q : Q)
| JStr (s : string)
| JList (items : list json)
| JObj (fields : list (string * json)).

Local Set Elimination Schemes.

Module pyjson.

(** [bool(v)]. *)
Definition truthy (v : json) : bool :=
  match v with
  | JNull => false
  | JBool b => b
  | JInt z => negb (z =? 0)%Z
  | JFloat q => negb (Qeq_bool q 0)
  | JStr s => negb (s =? "")%string
  | JList items => match items with [] => false | _ => true end
  | JObj fields => match fields with [] => false | _ => true end
  end.

Definition type_name (v : json) : string :=
  match v with
  | JNull => "NoneType"
  | JBool _ => "bool"
  | JInt _ => "int"
  | JFloat _ => "float"
  | JStr _ => "str"
  | JList _ => "list"
  | JObj _ => "dict"
  end.

(** [v.get(key, default)]: only a dictionary has the method. *)
Definition get (v : json) (key : string) (default : json) : result json :=
  match v with
  | JObj fields => Ok (dict.get String.eqb fields key default)
  | _ => Raise (Exception "AttributeError"
                  ("'" ++ type_name v ++ "' object has no attribute 'get'"))
  end.

End pyjson.

(** A Flask response: the body given to [jsonify] and the status code. *)
Definition response : Type := (json * nat)%type.

Definition error_response (error message : string) (status : nat) : response :=
  (JObj [("error", JStr error); ("message", JStr message)], status).

(* ================================================================= *)
(** ** trainedmodels/alzaimerpark.py: the life cycle of the model *)

(** [kwargs.pop('groups', None)] of [CompatibleDepthwiseConv2D.__init__]:
    the keyword arguments handed on to the Keras layer. *)
Definition compatible_kwargs {V : Type} (kwargs : list (string * V))
  : list (string * V) :=
  filter (fun kv => negb (fst kv =? "groups")%string) kwargs.

(** What a call of [load_model] leaves behind: the value of the global
    [MODEL], and what the call returns or raises. *)
Record loaded : Type := mk_loaded {
  MODEL_after : option Model;
  returned : result (option Model)
}.

(** [load_model()].  [path_exists] is [os.path.exists(MODEL_PATH)],
    [keras_load_model] what [tf.keras.models.load_model] does when called,
    and [stdout_write] what [print] does with a text on the standard output
    of the process: it raises when the stream cannot take the text, as a
    stream whose encoding has no check mark or cross does.  A [print] event
    is a text that has been written.  [MODEL] is the value of the global
    before the call. *)
Definition load_model (MODEL_PATH : string) (path_exists : bool)
    (keras_load_model : result Model) (stdout_write : string -> result unit)
    (MODEL : option Model) : list effect * loaded :=
  (* except Exception as e: entered with the events so far and the
     current value of the global *)
  let handler (t : list effect) (MODEL : option Model) (e : exn) :=
    let error_msg := "❌ Error loading model: " ++ str e in
    match stdout_write error_msg with
    | Raise e' => (t, mk_loaded MODEL (Raise e'))
    | Ok _ =>
        ((t ++ [print error_msg; core (logger_error error_msg)])%list,
         mk_loaded None (Ok None))
    end in
  match (if negb path_exists
         then Raise (Exception "FileNotFoundError"
                       ("Model file not found at: " ++ MODEL_PATH))
         else keras_load_model) with
  | Raise e => handler [] MODEL e
  | Ok m =>
      (* MODEL = tf.keras.models.load_model(...) *)
      let MODEL := Some m in
      match stdout_write "✅ AI Model loaded successfully!" with
      | Raise e => handler [] MODEL e
      | Ok _ =>
          ([print "✅ AI Model loaded successfully!";
            model_logger_info "AI Model loaded successfully!"],
           mk_loaded MODEL (Ok MODEL))
      end
  end.

(** [reload_model()]: [return load_model()]. *)
Definition reload_model := load_model.

(** A standard output that takes every text. *)
Definition stdout_accepts_all (text : string) : result unit := Ok tt.

(** A standard output in an encoding without the two signs: it takes the
    texts that have neither. *)
Definition stdout_ascii (text : string) : result unit :=
  if pystr.contains "✅" text || pystr.contains "❌" text
  then Raise (Exception "UnicodeEncodeError"
                "'ascii' codec can't encode character")
  else Ok tt.

(** [SUPPORTED_FORMATS]; membership does not depend on the order. *)
Definition SUPPORTED_FORMATS : list string :=
  ["png"; "jpg"; "jpeg"; "gif"; "bmp"; "tiff"].

Definition in_formats (ext : string) : bool :=
  existsb (String.eqb ext) SUPPORTED_FORMATS.

(* ================================================================= *)
(** ** models/user.py: reaching the database *)

(** The columns of [User] the routes read. *)
Record User : Type := mk_User {
  User_id : Z;
  first_name : string;
  last_name : string;
  email : string;
  user_type : string;
  is_active : bool
}.

Module UserDb.

(** How an f-string shows the result of [os.getenv]. *)
Definition shown (v : option string) : string :=
  match v with
  | Some s => s
  | None => "None"
  end.

(** [get_database_url()]; [getenv] is [os.getenv] without a default. *)
Definition get_database_url (getenv : string -> option string)
  : result string :=
  result_bind
    (if pystr.falsy (getenv "DATABASE_URL") then
       let db_host := getenv "DB_HOST" in
       let db_name := getenv "DB_NAME" in
       let db_user := getenv "DB_USER" in
       let db_password := getenv "DB_PASSWORD" in
       let db_port :=
         match getenv "DB_PORT" with Some p => p | None => "5432" end in
       if forallb (fun v => negb (pystr.falsy v))
            [db_host; db_name; db_user; db_password]
       then Ok ("postgresql://" ++ shown db_user ++ ":" ++ shown db_password
                ++ "@" ++ shown db_host ++ ":" ++ db_port ++ "/"
                ++ shown db_name ++ "?sslmode=require")
       else Raise (ValueError "DATABASE_URL environment variable is not set and individual DB components are missing")
     else Ok (shown (getenv "DATABASE_URL")))
    (fun database_url =>
       if negb (pystr.contains "sslmode=" database_url)
          && pystr.contains "neon.tech" database_url
       then
         let separator :=
           if pystr.contains "?" database_url then "&" else "?" in
         Ok (database_url ++ separator ++ "sslmode=require")
       else Ok database_url).

Section Engine.

(** SQLAlchemy: an engine, [create_engine(url, ...)], a connection that
    executes [SELECT 1], and [Base.metadata.create_all]. *)
Variable Engine : Type.
Variable create_engine : string -> result Engine.
Variable select_1 : Engine -> result unit.
Variable create_all : Engine -> result unit.

Variable getenv : string -> option string.

Local Open Scope eff_scope.

Definition create_database_engine : Eff.W Engine :=
  Eff.try_except
    (database_url <- Eff.lift (get_database_url getenv) ;;
     Eff.lift (create_engine database_url))
    (fun e =>
       Eff.emit (print ("Failed to create database engine: " ++ str e)) ;;;
       Eff.raise e).

Definition test_connection : Eff.W bool :=
  Eff.try_except
    (engine <- create_database_engine ;;
     Eff.lift (select_1 engine) ;;;
     Eff.ret true)
    (fun e =>
       Eff.emit (print ("Connection test failed: " ++ str e)) ;;;
       Eff.ret false).

Definition create_tables : Eff.W unit :=
  Eff.try_except
    (engine <- create_database_engine ;;
     Eff.lift (create_all engine) ;;;
     Eff.emit (print "Database tables created successfully!"))
    (fun e =>
       Eff.emit (print ("Failed to create tables: " ++ str e)) ;;;
       Eff.raise e).

End Engine.

End UserDb.

(* ================================================================= *)
(** ** server.py *)

Module Server.

Section Server.

Variable Engine : Type.
Variable create_engine : string -> result Engine.
Variable select_1 : Engine -> result unit.
Variable create_all : Engine -> result unit.
Variable getenv : string -> option string.

Local Open Scope eff_scope.

(** The route [/api/health]. *)
Definition health_check (MODEL : option Model) (utcnow_isoformat : string)
  : Eff.W response :=
  Eff.try_except
    (db_status <- UserDb.test_connection Engine create_engine select_1 getenv ;;
     let model_status := is_model_loaded MODEL in
     let overall_status := db_status && model_status in
     Eff.ret
       (JObj [("status", JStr (if overall_status then "healthy"
                               else "unhealthy"));
              ("database", JStr (if db_status then "connected"
                                 else "disconnected"));
              ("ai_model", JStr (if model_status then "loaded"
                                 else "not_loaded"));
              ("timestamp", JStr utcnow_isoformat);
              ("version", JStr "1.0.0")],
        if overall_status then 200 else 503))
    (fun e =>
       Eff.ret
         (JObj [("status", JStr "unhealthy");
                ("database", JStr "error");
                ("ai_model", JStr "error");
                ("error", JStr (str e));
                ("timestamp", JStr utcnow_isoformat)],
          503)).

Definition initialize_database : Eff.W bool :=
  Eff.try_except
    (Eff.emit (print "Initializing database...") ;;;
     connected <- UserDb.test_connection Engine create_engine select_1 getenv ;;
     if negb connected then
       Eff.emit (print "❌ Database connection failed!") ;;;
       Eff.ret false
     else
       Eff.emit (print "✅ Database connection successful!") ;;;
       UserDb.create_tables Engine create_engine create_all getenv ;;;
       Eff.emit (print "✅ Database tables initialized!") ;;;
       Eff.ret true)
    (fun e =>
       Eff.emit (print ("❌ Database initialization failed: " ++ str e)) ;;;
       Eff.ret false).

End Server.

End Server.

(* ================================================================= *)
(** ** routes/prediction_routes.py *)

(** An uploaded file of [request.files]. *)
Record FileStorage : Type := mk_FileStorage {
  filename : string;
  stream : list byte
}.

(** What a call of [/predict] reads from its surroundings: the identity of
    the token, the uploaded file called "image" if there is one, and the
    two readings of the clock. *)
Record predict_request : Type := mk_predict_request {
  jwt_identity : json;
  files_image : option FileStorage;
  now_strftime : string;
  utcnow_isoformat : string
}.

Module Routes.

(** The names the module binds at its top level: what it imports and what it
    defines. *)
Definition module_names : list string :=
  ["Blueprint"; "request"; "jsonify"; "jwt_required"; "get_jwt_identity";
   "os"; "logging"; "datetime"; "secure_filename"; "cloudinary"; "json";
   "configure_cloudinary"; "preprocess_image_from_bytes"; "image_prediction";
   "is_model_loaded"; "get_model_info"; "SUPPORTED_FORMATS"; "MODEL";
   "prediction_bp"; "logger"; "predict"; "generate_report";
   "prediction_health"; "test_route"].

(** Evaluating a global name that is not a builtin. *)
Definition load_global (n : string) : result unit :=
  if existsb (String.eqb n) module_names then Ok tt
  else Raise (Exception "NameError" ("name '" ++ n ++ "' is not defined")).

(** [file.filename.rsplit('.', 1)[1].lower() if '.' in file.filename else ''] *)
Definition file_extension (filename : string) : result string :=
  if pystr.contains "." filename then
    result_bind (pystr.item (pystr.rsplit_dot_1 filename) 1)
      (fun ext => Ok (pystr.lower ext))
  else Ok "".

Definition disclaimer : string :=
  "This AI analysis is for informational purposes only and should not replace professional medical diagnosis. Please consult with a qualified healthcare provider for proper medical evaluation.".

Section Routes.

Variable Image_open : list byte -> result Image.
Variable resize : nat * nat -> Image -> Image.
Variable refusal : cv2.code -> ndarray -> exn.

(** [cloudinary.uploader.upload(file, folder=, public_id=, resource_type=)]:
    the dictionary of the answer. *)
Variable uploader_upload :
  list byte -> string -> string -> string -> result (list (string * string)).

(** [werkzeug.utils.secure_filename]. *)
Variable secure_filename : string -> string.

(** [UserOperations.get_user_by_id]. *)
Variable get_user_by_id : json -> result (option User).

(** [round(float(p) * 100, 2)]. *)
Variable percent : Q -> Q.

(** The identity of the token inside an f-string. *)
Variable format_identity : json -> string.

(** [", ".join(SUPPORTED_FORMATS)], in the iteration order of the set. *)
Variable formats_joined : string.

Local Open Scope eff_scope.

(** The inner [try] block of [predict]. *)
Definition predict_processing (MODEL : option Model) (req : predict_request)
    (file : FileStorage) : Eff.W response :=
  let current_user_id := jwt_identity req in
  let file_bytes := stream file in
  let timestamp := now_strftime req in
  let cloudinary_folder := "medical_ai/scans" in
  let public_id := timestamp ++ "_" ++ secure_filename (filename file) in
  Eff.emit (cloudinary_uploader_upload file_bytes cloudinary_folder public_id
              "image") ;;;
  upload_result <-
    Eff.lift (uploader_upload file_bytes cloudinary_folder public_id "image") ;;
  image_url <-
    Eff.lift (dict.getitem String.eqb upload_result "secure_url"
                "'secure_url'") ;;
  Eff.emit (route_logger_info ("Image uploaded to Cloudinary: " ++ image_url)) ;;;
  image_array <-
    Eff.of_core (preprocess_image_from_bytes Image_open resize refusal
                   file_bytes) ;;
  raw_prediction <- Eff.of_core (image_prediction MODEL image_array) ;;
  let prediction_class := prediction raw_prediction in
  raw_probs <-
    Eff.lift (match raw_probabilities raw_prediction with
              | row :: _ => Ok row
              | [] => Raise (IndexError "list index out of range")
              end) ;;
  chosen <- Eff.lift (current_prediction prediction_class) ;;
  user <- Eff.lift (get_user_by_id current_user_id) ;;
  let username :=
    match user with
    | Some u => first_name u ++ " " ++ last_name u
    | None => "User " ++ format_identity current_user_id
    end in
  let prob (i : nat) : result Q :=
    match nth_error raw_probs i with
    | Some p => Ok p
    | None => Raise (IndexError "list index out of range")
    end in
  p0 <- Eff.lift (prob 0) ;;
  p1 <- Eff.lift (prob 1) ;;
  p2 <- Eff.lift (prob 2) ;;
  let response_data :=
    JObj [("success", JBool true);
          ("prediction",
           JObj [("name", JStr (name chosen));
                 ("full_name", JStr (full_name chosen));
                 ("description", JStr (description chosen));
                 ("recommendation", JStr (recommendation chosen));
                 ("confidence",
                  JObj [("control", JFloat (percent p0));
                        ("alzheimer", JFloat (percent p1));
                        ("parkinson", JFloat (percent p2))]);
                 ("primary_confidence",
                  JFloat (percent (confidence raw_prediction)))]);
          ("metadata",
           JObj [("filename", JStr (filename file));
                 ("timestamp", JStr (utcnow_isoformat req));
                 ("user_id", JStr username);
                 ("model_version", JStr "EfficientNetB0");
                 ("processing_time", JStr "N/A")]);
          ("image_url", JStr image_url);
          ("disclaimer", JStr disclaimer)] in
  Eff.emit (route_logger_info
              ("Prediction made for user " ++ format_identity current_user_id
               ++ ": " ++ prediction_class)) ;;;
  Eff.ret (response_data, 200).

(** The route [/predict], after [jwt_required] has let the request in. *)
Definition predict (MODEL : option Model) (req : predict_request)
  : Eff.W response :=
  Eff.try_except
    (if negb (is_model_loaded MODEL) then
       Eff.ret (error_response "Model not available"
                  "AI model is not loaded. Please contact support." 503)
     else
       match files_image req with
       | None =>
           Eff.ret (error_response "No file uploaded"
                      "Please upload an image file" 400)
       | Some file =>
           if (filename file =? "")%string then
             Eff.ret (error_response "No file selected"
                        "Please select an image file" 400)
           else
             ext <- Eff.lift (file_extension (filename file)) ;;
             if negb (in_formats ext) then
               Eff.ret (error_response "Invalid file type"
                          ("Allowed file types: " ++ formats_joined) 400)
             else
               Eff.try_except (predict_processing MODEL req file)
                 (fun e =>
                    Eff.emit (route_logger_error
                                ("Error processing image: " ++ str e)) ;;;
                    Eff.ret (error_response "Processing failed"
                               ("Failed to process image: " ++ str e) 500))
       end)
    (fun e =>
       Eff.emit (route_logger_error ("Prediction endpoint error: " ++ str e)) ;;;
       Eff.ret (error_response "Internal server error" (str e) 500)).

(** Everything [generate_report] does once the request has passed its
    checks: the user, the PDF, the upload.  It yields the URL of the upload
    and the name of the report. *)
Variable render_and_upload : json -> json -> json -> Eff.W (string * string).

(** The route [/generate-report]; [get_json] is what [request.get_json()]
    does when called. *)
Definition generate_report (method : string) (identity : json)
    (get_json : result json) : Eff.W response :=
  if (method =? "OPTIONS")%string then
    Eff.ret (JObj [("status", JStr "ok")], 200)
  else
    Eff.try_except
      (let current_user_id := identity in
       if negb (pyjson.truthy current_user_id) then
         Eff.ret (error_response "Authentication required"
                    "Please log in to generate reports" 401)
       else
         data <- Eff.lift get_json ;;
         if negb (pyjson.truthy data) then
           Eff.ret (error_response "No data provided"
                      "Request body must contain analysis results" 400)
         else
           results <- Eff.lift (pyjson.get data "results" JNull) ;;
           report_name <-
             Eff.lift (pyjson.get data "filename"
                         (JStr "analysis_report.pdf")) ;;
           if negb (pyjson.truthy results) then
             Eff.ret (error_response "Missing results"
                        "Analysis results are required to generate report" 400)
           else
             Eff.try_except
               (made <- render_and_upload current_user_id results report_name ;;
                Eff.ret
                  (JObj [("success", JBool true);
                         ("message", JStr "Report generated successfully");
                         ("download_url", JStr (fst made));
                         ("filename", JStr (snd made));
                         ("content_type", JStr "application/pdf")],
                   200))
               (fun e =>
                  Eff.emit (route_logger_error
                              ("Error generating PDF: " ++ str e)) ;;;
                  Eff.ret (error_response "PDF Generation failed" (str e) 500)))
      (fun e =>
         Eff.emit (route_logger_error ("Report generation error: " ++ str e)) ;;;
         Eff.ret (error_response "Report generation failed" (str e) 500)).

(** The route [/health] of the blueprint.  [upload_folder_exists] is what
    [os.path.exists] would answer. *)
Definition prediction_health (MODEL : option Model)
    (upload_folder_exists : bool) (now : string) : Eff.W response :=
  Eff.try_except
    (let model_loaded := is_model_loaded MODEL in
     Eff.lift (load_global "UPLOAD_FOLDER") ;;;
     let health_status :=
       JObj [("status", JStr (if model_loaded then "healthy"
                              else "unhealthy"));
             ("service", JStr "prediction_service");
             ("model_loaded", JBool model_loaded);
             ("upload_folder_exists", JBool upload_folder_exists);
             ("timestamp", JStr now)] in
     let status_code := if model_loaded then 200 else 503 in
     Eff.ret (health_status, status_code))
    (fun e =>
       Eff.emit (route_logger_error
                   ("Prediction health check failed: " ++ str e)) ;;;
       Eff.ret
         (JObj [("status", JStr "unhealthy");
                ("service", JStr "prediction_service");
                ("error", JStr (str e));
                ("timestamp", JStr now)],
          500)).

End Routes.

End Routes.

(** Events that send a file to Cloudinary, and computations without one. *)
Definition is_upload (ev : effect) : bool :=
  match ev with
  | cloudinary_uploader_upload _ _ _ _ => true
  | _ => false
  end.

Definition uploads_nothing {A : Type} (m : Eff.W A) : Prop :=
  Forall (fun ev => is_upload ev = false) (Eff.effects m).

(** Stand-ins for the services around [/predict], used to run the route. *)
Module SampleRoutes.

Definition uploader_upload (file : list byte) (folder public_id kind : string)
  : result (list (string * string)) :=
  Ok [("public_id", public_id);
      ("secure_url", "https://res.cloudinary.com/" ++ folder ++ "/" ++ public_id)].

Definition failing_upload (file : list byte) (folder public_id kind : string)
  : result (list (string * string)) :=
  Raise (Exception "Error" "Must supply api_key").

Definition secure_filename (s : string) : string := s.

Definition get_user_by_id (identity : json) : result (option User) :=
  Ok (Some (mk_User 7 "Ada" "Byron" "ada@example.org" "researcher" true)).

Definition percent (q : Q) : Q := (q * 100)%Q.

Definition format_identity (identity : json) : string := "7".

Definition formats_joined : string := "png, jpg, jpeg, gif, bmp, tiff".

Definition request (file_name : string) (content : list byte)
  : predict_request :=
  mk_predict_request (JInt 7) (Some (mk_FileStorage file_name content))
    "20240101_120000" "2024-01-01T12:00:00".

Definition loaded_model : option Model :=
  Some (Sample.constant_model Sample.probabilities).

(** A model with two outputs only. *)
Definition two_class_model : option Model :=
  Some (Sample.constant_model [1 # 4; 3 # 4]%Q).

Definition predict : option Model -> predict_request -> Eff.W response :=
  Routes.predict Raw.open Raw.resize Raw.refusal uploader_upload
    secure_filename
    get_user_by_id percent format_identity formats_joined.

End SampleRoutes.
(* ================================================================= *)
(** ** Reasoning about the monad *)

Lemma outcome_bind {A B : Type} (m : M A) (k : A -> M B) :
  outcome (bind m k) =
  match outcome m with
  | Ok a => outcome (k a)
  | Raise e => Raise e
  end.
Proof.
  destruct m as [t [a | e]]; simpl; [destruct (k a) |]; reflexivity.
Qed.

Lemma events_bind {A B : Type} (m : M A) (k : A -> M B) :
  events (bind m k) =
  match outcome m with
  | Ok a => (events m ++ events (k a))%list
  | Raise _ => events m
  end.
Proof.
  destruct m as [t [a | e]]; simpl; [destruct (k a) |]; reflexivity.
Qed.

Lemma outcome_try_except {A : Type} (body : M A) (handler : exn -> M A) :
  outcome (try_except body handler) =
  match outcome body with
  | Ok a => Ok a
  | Raise e => outcome (handler e)
  end.
Proof.
  destruct body as [t [a | e]]; simpl; [| destruct (handler e)]; reflexivity.
Qed.

Lemma events_try_except {A : Type} (body : M A) (handler : exn -> M A) :
  events (try_except body handler) =
  match outcome body with
  | Ok _ => events body
  | Raise e => (events body ++ events (handler e))%list
  end.
Proof.
  destruct body as [t [a | e]]; simpl; [| destruct (handler e)]; reflexivity.
Qed.

Lemma outcome_lift {A : Type} (r : result A) : outcome (lift r) = r.
Proof. reflexivity. Qed.

Lemma events_lift {A : Type} (r : result A) : events (lift r) = [].
Proof. reflexivity. Qed.

Lemma outcome_ret {A : Type} (a : A) : outcome (ret a) = Ok a.
Proof. reflexivity. Qed.

Lemma outcome_raise {A : Type} (e : exn) : outcome (@raise A e) = Raise e.
Proof. reflexivity. Qed.


(* ================================================================= *)
(** ** The validator *)

Section Validator.

Variable Image_open : list byte -> result Image.

Local Notation "'validate'" := (validate_image_for_medical_scan Image_open).

Lemma validate_handler_outcome (e : exn) :
  outcome (emit (logger_error ("Image validation error: " ++ str e)) ;;;
           ret skipped) = Ok skipped.
Proof. reflexivity. Qed.

(** Whatever the bytes are, the validator returns a dictionary. *)
Lemma validate_returns (file_bytes : list byte) :
  exists v, outcome (validate file_bytes) = Ok v.
Proof.
  unfold validate_image_for_medical_scan.
  rewrite outcome_try_except.
  destruct (outcome (validate_body Image_open file_bytes)) as [v | e].
  - now exists v.
  - now exists skipped.
Qed.

Lemma validate_body_undecodable (file_bytes : list byte) (e : exn) :
  Image_open file_bytes = Raise e ->
  validate_body Image_open file_bytes = ([], Raise e).
Proof.
  intros H. unfold validate_body. rewrite H. reflexivity.
Qed.

(** An image of one band has two dimensions: the colour test is not run. *)
Lemma validate_single_band (file_bytes : list byte) (im : Image) :
  Image_open file_bytes = Ok im ->
  bands im = 1 ->
  validate file_bytes = ([], Ok accepted).
Proof.
  intros Ho Hb.
  unfold validate_image_for_medical_scan, validate_body, np_array.
  rewrite Ho. cbn. rewrite Hb. reflexivity.
Qed.

(** Three or more bands: the outcome is decided by the colour statistic of
    the first three. *)
Lemma validate_three_or_more (file_bytes : list byte) (im : Image) (n : nat) :
  Image_open file_bytes = Ok im ->
  bands im = 3 + n ->
  validate file_bytes =
  ([], Ok (if float64.ltb (float64.of_Z 20)
                (color_diff (np.take_channel (3 + n) 0 (pixels im))
                            (np.take_channel (3 + n) 1 (pixels im))
                            (np.take_channel (3 + n) 2 (pixels im)))
           then rejected else accepted)).
Proof.
  intros Ho Hb.
  unfold validate_image_for_medical_scan, validate_body, np_array.
  rewrite Ho. cbn -[color_diff np.take_channel float64.ltb float64.of_Z].
  rewrite Hb. cbn -[color_diff np.take_channel float64.ltb float64.of_Z].
  destruct (float64.ltb _ _); reflexivity.
Qed.

(** Two bands: [image_array[:,:,2]] is out of bounds and the handler
    answers. *)
Lemma validate_two_bands (file_bytes : list byte) (im : Image) :
  Image_open file_bytes = Ok im ->
  bands im = 2 ->
  validate file_bytes =
  ([logger_error
      "Image validation error: index 2 is out of bounds for axis 2 with size 2"],
   Ok skipped).
Proof.
  intros Ho Hb.
  unfold validate_image_for_medical_scan, validate_body, np_array.
  rewrite Ho. cbn. rewrite Hb. reflexivity.
Qed.

End Validator.

(* ================================================================= *)
(** ** The colour statistic *)

(** An image of several bands has a byte per band. *)
Lemma several_bands_bytes (im : Image) :
  bands im <> 1 -> exists px, content im = multi_band (bands im) px.
Proof.
  unfold bands. destruct (content im) as [values | n px]; intros H.
  - now contradiction H.
  - now exists px.
Qed.


Section ColourStatistic.











End ColourStatistic.

(* ================================================================= *)
(** ** Claims about the validator *)

(** The validator has three answers. *)
Lemma validate_answers (Image_open : list byte -> result Image)
    (file_bytes : list byte) :
  exists v,
    outcome (validate_image_for_medical_scan Image_open file_bytes) = Ok v /\
    (v = accepted \/ v = rejected \/ v = skipped).
Proof.
  unfold validate_image_for_medical_scan. rewrite outcome_try_except.
  destruct (outcome (validate_body Image_open file_bytes)) as [v | e] eqn:Hb.
  - exists v. split; [reflexivity |].
    unfold validate_body in Hb. rewrite outcome_bind, outcome_lift in Hb.
    destruct (Image_open file_bytes) as [im | e]; [| discriminate].
    cbv zeta in Hb.
    destruct (shape (np_array im)) as [| h [| w [| c [| ? ?]]]];
      try (rewrite outcome_ret in Hb; injection Hb as <-; now auto).
    rewrite outcome_bind, outcome_lift in Hb.
    destruct (np.channel c (data (np_array im)) 0) as [r | e];
      [| discriminate].
    rewrite outcome_bind, outcome_lift in Hb.
    destruct (np.channel c (data (np_array im)) 1) as [g | e];
      [| discriminate].
    rewrite outcome_bind, outcome_lift in Hb.
    destruct (np.channel c (data (np_array im)) 2) as [b | e];
      [| discriminate].
    destruct (float64.ltb (float64.of_Z 20) (color_diff r g b));
      rewrite outcome_ret in Hb; injection Hb as <-; auto.
  - exists skipped. split; [reflexivity | auto].
Qed.

(** A grey RGB file is accepted. *)
Example validate_gray_sample :
  validate_image_for_medical_scan Raw.open Sample.gray_rgb
  = ([], Ok accepted).
Proof. vm_compute. reflexivity. Qed.




(** C7.  The validator returns for every byte sequence, and whenever its
    body raises -- in particular when the bytes do not decode -- the answer
    is [is_valid = true] with the reason that validation was skipped, the
    error going to the log. *)
Theorem validate_never_blocks
    (Image_open : list byte -> result Image) (file_bytes : list byte) :
  (exists v,
     outcome (validate_image_for_medical_scan Image_open file_bytes) = Ok v) /\
  (forall e,
     outcome (validate_body Image_open file_bytes) = Raise e ->
     outcome (validate_image_for_medical_scan Image_open file_bytes)
       = Ok (mk_validation true "Validation skipped due to error.") /\
     In (logger_error ("Image validation error: " ++ str e))
        (events (validate_image_for_medical_scan Image_open file_bytes))) /\
  (forall e,
     Image_open file_bytes = Raise e ->
     outcome (validate_image_for_medical_scan Image_open file_bytes)
       = Ok (mk_validation true "Validation skipped due to error.")).
Proof.
  split; [apply validate_returns |].
  assert (Hbody : forall e,
    outcome (validate_body Image_open file_bytes) = Raise e ->
    outcome (validate_image_for_medical_scan Image_open file_bytes)
      = Ok skipped /\
    In (logger_error ("Image validation error: " ++ str e))
       (events (validate_image_for_medical_scan Image_open file_bytes))).
  { intros e He. unfold validate_image_for_medical_scan.
    rewrite outcome_try_except, events_try_except, He. split.
    - reflexivity.
    - apply in_or_app. right. cbn. now left. }
  split; [exact Hbody |].
  intros e He. apply (Hbody e).
  now rewrite (validate_body_undecodable Image_open file_bytes e He).
Qed.

Lemma validate_never_blocks_witness :
  outcome (validate_image_for_medical_scan Raw.open Sample.garbage)
  = Ok (mk_validation true "Validation skipped due to error.").
Proof.
  exact (proj2 (proj2 (validate_never_blocks Raw.open Sample.garbage))
           _ eq_refl).
Defined.

(* ================================================================= *)
(** ** The preprocessor *)

Section Preprocessor.

Variable Image_open : list byte -> result Image.
Variable resize : nat * nat -> Image -> Image.
Variable refusal : cv2.code -> ndarray -> exn.

Local Notation "'validate'" :=
  (validate_image_for_medical_scan Image_open).
Local Notation "'body'" := (preprocess_body Image_open resize refusal).
Local Notation "'prepare'" :=
  (preprocess_image_from_bytes Image_open resize refusal).

(** What the [try] block computes, step by step. *)
Lemma outcome_preprocess_body (file_bytes : list byte) :
  outcome (body file_bytes) =
  match outcome (validate file_bytes) with
  | Raise e => Raise e
  | Ok v =>
      if is_valid v then
        match Image_open file_bytes with
        | Raise e => Raise e
        | Ok opened =>
            match convert_channels refusal
                    (np_array (resize (150, 150) opened)) with
            | Ok a => Ok (np.expand_dims0 a)
            | Raise e => Raise e
            end
        end
      else Raise (ValueError (reason v))
  end.
Proof.
  unfold preprocess_body. rewrite outcome_bind.
  destruct (outcome (validate file_bytes)) as [v | e]; [| reflexivity].
  rewrite outcome_bind.
  destruct (is_valid v); cbn [negb]; [| reflexivity].
  rewrite outcome_ret, outcome_bind, outcome_lift.
  destruct (Image_open file_bytes) as [opened | e]; [| reflexivity].
  cbv zeta. rewrite outcome_bind. unfold convert_channels.
  destruct (np.ndim _ =? 2)%nat; [| destruct (np.shape_last _ =? 4)%nat];
    rewrite ?outcome_lift, ?outcome_ret;
    try destruct (cv2.cvtColor _ _ _); reflexivity.
Qed.

(** The channel step on the array of an image: it goes through exactly for
    the convertible images, and gives the closed form [tensor_of]. *)
Lemma convert_channels_np_array (im : Image) :
  convertible im = true ->
  match convert_channels refusal (np_array im) with
  | Ok a => Ok (np.expand_dims0 a)
  | Raise e => Raise e
  end = Ok (tensor_of im).
Proof.
  unfold convertible, convert_channels, cv2.cvtColor, np_array, tensor_of,
    np.ndim, np.shape_last.
  destruct (bands im =? 1)%nat eqn:E1; cbn; [intros ->; reflexivity |].
  destruct (bands im =? 4)%nat eqn:E4; [| reflexivity].
  apply Nat.eqb_eq in E4. rewrite E4. intros ->. reflexivity.
Qed.

(** An image that is not convertible has one band, of booleans or of
    32-bit integers, and OpenCV refuses its array. *)
Lemma convert_channels_refused (im : Image) :
  convertible im = false ->
  bands im = 1 /\
  cv2.depth_supported (np.dtype_of (pixels im)) = false /\
  convert_channels refusal (np_array im)
  = Raise (refusal cv2.COLOR_GRAY2RGB (np_array im)).
Proof.
  unfold convertible, convert_channels, cv2.cvtColor, np_array, bands, pixels,
    np.ndim, np.shape_last.
  destruct (content im) as [values | n px]; cbn.
  - intros ->. repeat split.
  - destruct ((n =? 1)%nat || (n =? 4)%nat); discriminate.
Qed.

(** Once the validator has let the bytes through and they decode to an
    image whose resized form is convertible, the preprocessor returns the
    converted, batched array of the resized image. *)
Lemma outcome_prepare_accepted (file_bytes : list byte) (v : validation)
    (opened : Image) :
  outcome (validate file_bytes) = Ok v ->
  is_valid v = true ->
  Image_open file_bytes = Ok opened ->
  convertible (resize (150, 150) opened) = true ->
  outcome (prepare file_bytes) = Ok (tensor_of (resize (150, 150) opened)).
Proof.
  intros Hv Hvalid Ho Hc.
  unfold preprocess_image_from_bytes.
  rewrite outcome_try_except, outcome_preprocess_body, Hv, Hvalid, Ho.
  rewrite (convert_channels_np_array _ Hc). reflexivity.
Qed.

(** When the resized image is not convertible, the refusal of OpenCV comes
    out wrapped. *)
Lemma outcome_prepare_refused (file_bytes : list byte) (v : validation)
    (opened : Image) :
  outcome (validate file_bytes) = Ok v ->
  is_valid v = true ->
  Image_open file_bytes = Ok opened ->
  convertible (resize (150, 150) opened) = false ->
  outcome (prepare file_bytes) =
  Raise (ValueError
           ("Failed to preprocess image: "
            ++ str (refusal cv2.COLOR_GRAY2RGB
                      (np_array (resize (150, 150) opened))))).
Proof.
  intros Hv Hvalid Ho Hc.
  unfold preprocess_image_from_bytes.
  rewrite outcome_try_except, outcome_preprocess_body, Hv, Hvalid, Ho.
  destruct (convert_channels_refused _ Hc) as (_ & _ & ->). reflexivity.
Qed.

(** Conversely a returned array is of that form. *)
Lemma outcome_prepare_inv (file_bytes : list byte) (t : ndarray) :
  outcome (prepare file_bytes) = Ok t ->
  exists v opened,
    outcome (validate file_bytes) = Ok v /\ is_valid v = true /\
    Image_open file_bytes = Ok opened /\
    convertible (resize (150, 150) opened) = true /\
    t = tensor_of (resize (150, 150) opened).
Proof.
  unfold preprocess_image_from_bytes.
  rewrite outcome_try_except, outcome_preprocess_body.
  destruct (outcome (validate file_bytes)) as [v | e]; [| discriminate].
  destruct (is_valid v) eqn:Hvalid; [| discriminate].
  destruct (Image_open file_bytes) as [opened | e] eqn:Ho; [| discriminate].
  destruct (convertible (resize (150, 150) opened)) eqn:Hc.
  - rewrite (convert_channels_np_array _ Hc). intros H. injection H as <-.
    now exists v, opened.
  - destruct (convert_channels_refused _ Hc) as (_ & _ & ->). discriminate.
Qed.


Lemma outcome_prepare (file_bytes : list byte) :
  outcome (prepare file_bytes) =
  match outcome (body file_bytes) with
  | Ok t => Ok t
  | Raise e => Raise (ValueError ("Failed to preprocess image: " ++ str e))
  end.
Proof.
  unfold preprocess_image_from_bytes. rewrite outcome_try_except.
  destruct (outcome (body file_bytes)); reflexivity.
Qed.


End Preprocessor.

(* ================================================================= *)
(** ** The two channel conversions *)

Lemma gray2rgb_length {A : Type} (l : list A) :
  List.length (cv2.gray2rgb l) = 3 * List.length l.
Proof.
  induction l as [| v l IH]; [reflexivity |].
  change (cv2.gray2rgb (v :: l)) with (v :: v :: v :: cv2.gray2rgb l).
  cbn [List.length]. lia.
Qed.

Lemma gray2rgb_incl {A : Type} (l : list A) : incl (cv2.gray2rgb l) l.
Proof.
  intros x Hx. apply in_flat_map in Hx. destruct Hx as (v & Hv & Hin).
  cbn in Hin. intuition (subst; assumption).
Qed.

(** [rgba2rgb] consumes four elements at a time: facts about it go by
    induction on a bound of the length. *)
Lemma rgba2rgb_length {A : Type} (n : nat) : forall l : list A,
  List.length l = 4 * n -> List.length (cv2.rgba2rgb l) = 3 * n.
Proof.
  induction n as [| n IH]; intros l Hlen.
  - destruct l; [reflexivity | discriminate].
  - destruct l as [| r [| g [| b [| a rest]]]]; try (cbn in Hlen; lia).
    cbn [cv2.rgba2rgb List.length].
    rewrite (IH rest) by (cbn in Hlen; lia). lia.
Qed.

Lemma rgba2rgb_incl_bounded {A : Type} (n : nat) : forall l : list A,
  List.length l <= n -> incl (cv2.rgba2rgb l) l.
Proof.
  induction n as [| n IH]; intros l Hlen.
  - destruct l; [intros x [] | cbn in Hlen; lia].
  - destruct l as [| r [| g [| b [| a rest]]]];
      try (intros x Hx; contradiction Hx).
    cbn [cv2.rgba2rgb]. intros x Hx.
    destruct Hx as [<- | [<- | [<- | Hx]]];
      [now left | right; now left | do 2 right; now left |].
    do 4 right. apply (IH rest); [cbn in Hlen; lia | exact Hx].
Qed.

Lemma rgba2rgb_incl {A : Type} (l : list A) : incl (cv2.rgba2rgb l) l.
Proof. apply (rgba2rgb_incl_bounded (List.length l)). apply Nat.le_refl. Qed.

(** Rearranging the elements of a buffer keeps their type, and brings in no
    element when the rearrangement of lists brings in none. *)
Lemma dtype_of_rearrange (f : forall A : Type, list A -> list A)
    (b : buffer) :
  np.dtype_of (np.rearrange f b) = np.dtype_of b.
Proof. destruct b; reflexivity. Qed.

Lemma elements_rearrange_incl (f : forall A : Type, list A -> list A)
    (b : buffer) :
  (forall (A : Type) (l : list A), incl (f A l) l) ->
  incl (np.elements (np.rearrange f b)) (np.elements b).
Proof. intros Hf. destruct b; cbn; apply incl_map, Hf. Qed.

Lemma dtype_of_convert (c : cv2.code) (b : buffer) :
  np.dtype_of (cv2.convert c b) = np.dtype_of b.
Proof. destruct c; apply dtype_of_rearrange. Qed.

Lemma elements_convert_incl (c : cv2.code) (b : buffer) :
  incl (np.elements (cv2.convert c b)) (np.elements b).
Proof.
  destruct c; apply elements_rearrange_incl; intros A l;
    [apply gray2rgb_incl | apply rgba2rgb_incl].
Qed.

Lemma size_gray2rgb (b : buffer) :
  np.size (cv2.convert cv2.COLOR_GRAY2RGB b) = 3 * np.size b.
Proof. destruct b; apply gray2rgb_length. Qed.

Lemma size_rgba2rgb (n : nat) (b : buffer) :
  np.size b = 4 * n -> np.size (cv2.convert cv2.COLOR_RGBA2RGB b) = 3 * n.
Proof. destruct b; apply rgba2rgb_length. Qed.

(* ================================================================= *)
(** ** The concrete back end meets the interface *)

Lemma flat_map_length_const {A B : Type} (f : A -> list B) (c : nat)
    (l : list A) :
  (forall x, List.length (f x) = c) ->
  List.length (flat_map f l) = List.length l * c.
Proof.
  intros Hf. induction l as [| x l IH]; [reflexivity |].
  cbn [flat_map List.length]. rewrite length_app, Hf, IH. lia.
Qed.

Lemma resample_length {A : Type} (d : A) (n w h w' h' : nat) (l : list A) :
  List.length (Raw.resample d n w h w' h' l) = h' * w' * n.
Proof.
  unfold Raw.resample.
  rewrite (flat_map_length_const _ (w' * n)).
  - rewrite length_seq. lia.
  - intros y. rewrite (flat_map_length_const _ n).
    + now rewrite length_seq.
    + intros x. unfold Raw.pixel_at. now rewrite length_map, length_seq.
Qed.

Lemma Raw_resize_size (w h : nat) (im : Image) :
  width (Raw.resize (w, h) im) = w /\ height (Raw.resize (w, h) im) = h.
Proof. split; reflexivity. Qed.

Lemma Raw_resize_bands (size : nat * nat) (im : Image) :
  bands (Raw.resize size im) = bands im.
Proof.
  destruct size. unfold bands, Raw.resize. cbn [content].
  destruct (content im) as [[] |]; reflexivity.
Qed.

Lemma Raw_resize_dtype (size : nat * nat) (im : Image) :
  np.dtype_of (pixels (Raw.resize size im)) = np.dtype_of (pixels im).
Proof.
  destruct size. unfold pixels, Raw.resize. cbn [content].
  destruct (content im) as [[] |]; reflexivity.
Qed.

Lemma Raw_resize_pixels (w h : nat) (im : Image) :
  np.size (pixels (Raw.resize (w, h) im)) = h * w * bands im.
Proof.
  unfold pixels, bands, Raw.resize. cbn [content].
  destruct (content im) as [[] |]; cbn [np.size];
    apply resample_length.
Qed.

(* ================================================================= *)
(** ** Claims about the preprocessor *)

Section PreprocessorClaims.

Variable Image_open : list byte -> result Image.
Variable resize : nat * nat -> Image -> Image.
Variable refusal : cv2.code -> ndarray -> exn.

Hypothesis resize_size : forall w h im,
  width (resize (w, h) im) = w /\ height (resize (w, h) im) = h.
Hypothesis resize_bands : forall size im,
  bands (resize size im) = bands im.
Hypothesis resize_dtype : forall size im,
  np.dtype_of (pixels (resize size im)) = np.dtype_of (pixels im).
Hypothesis resize_pixels : forall w h im,
  np.size (pixels (resize (w, h) im)) = h * w * bands im.

Local Notation "'validate'" :=
  (validate_image_for_medical_scan Image_open).
Local Notation "'prepare'" :=
  (preprocess_image_from_bytes Image_open resize refusal).

(** The shape of the returned array depends on the bands of the source
    only. *)
Lemma tensor_of_resized_shape (im : Image) :
  shape (tensor_of (resize (150, 150) im)) =
  [1; 150; 150; if (bands im =? 1)%nat then 3
                else if (bands im =? 4)%nat then 3 else bands im].
Proof.
  unfold tensor_of. rewrite resize_bands.
  destruct (resize_size 150 150 im) as [-> ->].
  destruct (bands im =? 1)%nat; [reflexivity |].
  destruct (bands im =? 4)%nat; reflexivity.
Qed.

(** Resizing does not change whether the channel step goes through. *)
Lemma convertible_resized (size : nat * nat) (im : Image) :
  convertible (resize size im) = convertible im.
Proof. unfold convertible. now rewrite resize_bands, resize_dtype. Qed.

(** C1, amended.  A single-band (greyscale) or four-band (RGBA) image that
    decodes, passes the validator and has elements of a type OpenCV
    converts -- 8-bit, 16-bit unsigned or 32-bit float -- is turned into an
    array of shape (1, 150, 150, 3), holding 1*150*150*3 values. *)
Theorem preprocess_shape_gray_rgba (file_bytes : list byte) (im : Image)
    (v : validation) :
  Image_open file_bytes = Ok im ->
  bands im = 1 \/ bands im = 4 ->
  cv2.depth_supported (np.dtype_of (pixels im)) = true ->
  outcome (validate file_bytes) = Ok v ->
  is_valid v = true ->
  exists t,
    outcome (prepare file_bytes) = Ok t /\
    shape t = [1; 150; 150; 3] /\
    np.size (data t) = 1 * 150 * 150 * 3.
Proof.
  intros Ho Hb Hd Hv Hvalid.
  exists (tensor_of (resize (150, 150) im)).
  split.
  { apply (outcome_prepare_accepted _ _ _ _ _ _ Hv Hvalid Ho).
    rewrite convertible_resized. unfold convertible. rewrite Hd.
    now destruct (_ || _). }
  split.
  - rewrite tensor_of_resized_shape.
    destruct Hb as [-> | ->]; reflexivity.
  - pose proof (resize_pixels 150 150 im) as Hlen.
    unfold tensor_of. rewrite resize_bands.
    destruct Hb as [Hb | Hb]; rewrite Hb in *;
      cbn [Nat.eqb np.expand_dims0 data].
    + rewrite size_gray2rgb, Hlen. lia.
    + rewrite (size_rgba2rgb (150 * 150)); [lia | rewrite Hlen; lia].
Qed.


(** The missed case: a two-band image (grey with alpha) goes through the
    validator by way of its error handler and through the preprocessor
    unconverted. *)
Lemma preprocess_two_bands (file_bytes : list byte) (im : Image) :
  Image_open file_bytes = Ok im ->
  bands im = 2 ->
  exists t,
    outcome (prepare file_bytes) = Ok t /\ shape t = [1; 150; 150; 2].
Proof.
  intros Ho Hb.
  exists (tensor_of (resize (150, 150) im)). split.
  - apply (outcome_prepare_accepted _ _ _ _ skipped _);
      [| reflexivity | exact Ho |].
    + now rewrite (validate_two_bands Image_open file_bytes im Ho Hb).
    + unfold convertible. now rewrite resize_bands, Hb.
  - rewrite tensor_of_resized_shape, Hb. reflexivity.
Qed.

(** X4.  Which sources end with three channels: exactly those with one,
    three or four bands.  Any other number of bands reaches the model
    unchanged. *)
Lemma preprocess_three_channels_iff (file_bytes : list byte) (t : ndarray) :
  outcome (prepare file_bytes) = Ok t ->
  exists im,
    Image_open file_bytes = Ok im /\
    (last (shape t) 0 = 3 <-> bands im = 1 \/ bands im = 3 \/ bands im = 4).
Proof.
  intros Ht.
  destruct (outcome_prepare_inv _ _ _ _ _ Ht)
    as (v & im & _ & _ & Ho & _ & ->).
  exists im. split; [exact Ho |].
  rewrite tensor_of_resized_shape. cbn [last].
  destruct (bands im =? 1)%nat eqn:E1.
  - apply Nat.eqb_eq in E1. intuition.
  - destruct (bands im =? 4)%nat eqn:E4.
    + apply Nat.eqb_eq in E4. intuition.
    + apply Nat.eqb_neq in E1, E4. intuition; contradiction.
Qed.

(** C10, amended.  A returned array holds the band values of the decoded,
    resized image and nothing else: for one band each value three times,
    for four bands the first three of every pixel, otherwise the buffer as
    it is.  The elements keep the type they have in the image, no value is
    computed from another, and when the image has 8-bit bands every value
    is a byte, on the scale 0-255. *)
Theorem preprocess_keeps_raw_values (file_bytes : list byte) (t : ndarray) :
  outcome (prepare file_bytes) = Ok t ->
  exists im,
    Image_open file_bytes = Ok im /\
    let resized := np_array (resize (150, 150) im) in
    data t = (if (bands im =? 1)%nat
              then cv2.convert cv2.COLOR_GRAY2RGB (data resized)
              else if (bands im =? 4)%nat
              then cv2.convert cv2.COLOR_RGBA2RGB (data resized)
              else data resized) /\
    np.dtype_of (data t) = np.dtype_of (data resized) /\
    incl (np.elements (data t)) (np.elements (data resized)) /\
    (np.dtype_of (data resized) = np.uint8 ->
     exists l, data t = uint8s l /\
               Forall (fun x => (0 <= Z.of_N (Byte.to_N x) <= 255)%Z) l).
Proof.
  intros Ht.
  destruct (outcome_prepare_inv _ _ _ _ _ Ht)
    as (v & im & _ & _ & Ho & _ & ->).
  exists im. split; [exact Ho |]. cbv zeta.
  unfold tensor_of. rewrite resize_bands. cbn [np_array data].
  set (px := pixels (resize (150, 150) im)).
  assert (Hdata :
    data (np.expand_dims0
            (if (bands im =? 1)%nat
             then mk_ndarray [height (resize (150, 150) im);
                              width (resize (150, 150) im); 3]
                    (cv2.convert cv2.COLOR_GRAY2RGB px)
             else if (bands im =? 4)%nat
             then mk_ndarray [height (resize (150, 150) im);
                              width (resize (150, 150) im); 3]
                    (cv2.convert cv2.COLOR_RGBA2RGB px)
             else mk_ndarray [height (resize (150, 150) im);
                              width (resize (150, 150) im); bands im] px))
    = (if (bands im =? 1)%nat then cv2.convert cv2.COLOR_GRAY2RGB px
       else if (bands im =? 4)%nat then cv2.convert cv2.COLOR_RGBA2RGB px
       else px)).
  { destruct (bands im =? 1)%nat; [reflexivity |].
    destruct (bands im =? 4)%nat; reflexivity. }
  rewrite Hdata. clear Hdata.
  assert (Htype :
    np.dtype_of (if (bands im =? 1)%nat then cv2.convert cv2.COLOR_GRAY2RGB px
                 else if (bands im =? 4)%nat
                 then cv2.convert cv2.COLOR_RGBA2RGB px
                 else px) = np.dtype_of px).
  { destruct (bands im =? 1)%nat; [apply dtype_of_convert |].
    destruct (bands im =? 4)%nat; [apply dtype_of_convert | reflexivity]. }
  split; [reflexivity |]. split; [exact Htype |]. split.
  - destruct (bands im =? 1)%nat; [apply elements_convert_incl |].
    destruct (bands im =? 4)%nat;
      [apply elements_convert_incl | apply incl_refl].
  - intros H8. rewrite <- Htype in H8.
    destruct (if (bands im =? 1)%nat then _ else _) as [| l | | |];
      try discriminate H8.
    exists l. split; [reflexivity |].
    apply Forall_forall. intros x _.
    pose proof (Byte.to_N_bounded x). lia.
Qed.

End PreprocessorClaims.

(* ================================================================= *)
(** ** Closed instances for the preprocessor *)

(** C1, as stated, fails for a greyscale image of one bit per pixel.  The
    file decodes to an image of one band, the validator accepts it, and the
    preprocessor raises: NumPy makes an array of booleans of it, which
    OpenCV does not convert. *)
Lemma preprocess_bilevel_raises :
  exists im,
    Raw.open Sample.bilevel = Ok im /\
    bands im = 1 /\
    validate_image_for_medical_scan Raw.open Sample.bilevel
    = ([], Ok accepted) /\
    outcome (preprocess_image_from_bytes Raw.open Raw.resize Raw.refusal
               Sample.bilevel)
    = Raise (ValueError
               ("Failed to preprocess image: "
                ++ str (Raw.refusal cv2.COLOR_GRAY2RGB
                          (np_array (Raw.resize (150, 150) im))))) /\
    forall t,
      outcome (preprocess_image_from_bytes Raw.open Raw.resize Raw.refusal
                 Sample.bilevel) <> Ok t.
Proof.
  exists (mk_Image 2 1 (single_band (bools [true; false]))).
  split; [reflexivity |]. split; [reflexivity |]. split; [reflexivity |].
  pose proof (outcome_prepare_refused Raw.open Raw.resize Raw.refusal
                Sample.bilevel accepted
                (mk_Image 2 1 (single_band (bools [true; false])))
                eq_refl eq_refl eq_refl eq_refl) as H.
  split; [exact H |]. intros t Ht. rewrite H in Ht. discriminate Ht.
Qed.

Lemma preprocess_shape_gray_rgba_witness :
  (exists t,
     outcome (preprocess_image_from_bytes Raw.open Raw.resize Raw.refusal
                Sample.gray_l) = Ok t /\
     shape t = [1; 150; 150; 3] /\
     np.size (data t) = 1 * 150 * 150 * 3) /\
  (exists t,
     outcome (preprocess_image_from_bytes Raw.open Raw.resize Raw.refusal
                Sample.gray_rgba) = Ok t /\
     shape t = [1; 150; 150; 3] /\
     np.size (data t) = 1 * 150 * 150 * 3).
Proof.
  split.
  - apply (preprocess_shape_gray_rgba Raw.open Raw.resize Raw.refusal
             Raw_resize_size Raw_resize_bands Raw_resize_dtype
             Raw_resize_pixels
             Sample.gray_l
             (mk_Image 2 1 (single_band (uint8s (skipn 3 Sample.gray_l))))
             accepted).
    + reflexivity.
    + left. reflexivity.
    + reflexivity.
    + reflexivity.
    + reflexivity.
  - apply (preprocess_shape_gray_rgba Raw.open Raw.resize Raw.refusal
             Raw_resize_size Raw_resize_bands Raw_resize_dtype
             Raw_resize_pixels
             Sample.gray_rgba
             (mk_Image 1 2 (multi_band 4 (skipn 3 Sample.gray_rgba)))
             accepted).
    + reflexivity.
    + right. reflexivity.
    + reflexivity.
    + vm_compute. reflexivity.
    + reflexivity.
Defined.


Lemma hd_error_In {A : Type} (l : list A) (x : A) :
  hd_error l = Some x -> In x l.
Proof. destruct l; intros H; [discriminate H | injection H as ->; now left]. Qed.

(** C10, as stated, fails for an image of sixteen bits per pixel.  The
    file is accepted, and the array that is returned holds the value 1000,
    which is not on the scale 0-255. *)
Lemma preprocess_sixteen_bit_values :
  exists t,
    outcome (preprocess_image_from_bytes Raw.open Raw.resize Raw.refusal
               Sample.gray_16) = Ok t /\
    shape t = [1; 150; 150; 3] /\
    In (np.of_uint16 1000) (np.elements (data t)) /\
    ~ (1000 <= 255)%N.
Proof.
  exists (tensor_of (Raw.resize (150, 150)
                       (mk_Image 1 1 (single_band (uint16s [1000%N]))))).
  split.
  { apply (outcome_prepare_accepted _ _ _ _ accepted); reflexivity. }
  split; [reflexivity |]. split.
  - apply hd_error_In. vm_compute. reflexivity.
  - intros H. apply H. reflexivity.
Qed.

Lemma preprocess_keeps_raw_values_witness :
  exists im,
    Raw.open Sample.gray_rgba = Ok im /\
    data (tensor_of (Raw.resize (150, 150) im))
    = cv2.convert cv2.COLOR_RGBA2RGB
        (data (np_array (Raw.resize (150, 150) im))).
Proof.
  destruct (preprocess_keeps_raw_values Raw.open Raw.resize Raw.refusal
              Raw_resize_bands
              Sample.gray_rgba
              (tensor_of (Raw.resize (150, 150)
                            (mk_Image 1 2
                               (multi_band 4 (skipn 3 Sample.gray_rgba))))))
    as (im & Ho & Hdata & _).
  - apply (outcome_prepare_accepted _ _ _ _ accepted).
    + vm_compute. reflexivity.
    + reflexivity.
    + reflexivity.
    + reflexivity.
  - exists im. split; [exact Ho |].
    injection Ho as <-. exact Hdata.
Defined.

(** C9.  A file that decodes to a one-pixel grey image with alpha is
    accepted by the preprocessor, and the array it returns has two channels:
    its shape is (1, 150, 150, 2), not (1, 150, 150, 3). *)
Theorem preprocess_gray_alpha_two_channels :
  exists t,
    outcome (preprocess_image_from_bytes Raw.open Raw.resize Raw.refusal
               Sample.gray_la)
      = Ok t /\
    shape t = [1; 150; 150; 2] /\
    last (shape t) 0 <> 3.
Proof.
  destruct (preprocess_two_bands Raw.open Raw.resize Raw.refusal
              Raw_resize_size Raw_resize_bands
              Sample.gray_la (mk_Image 1 1 (multi_band 2 (skipn 3 Sample.gray_la)))
              eq_refl eq_refl) as (t & Ht & Hshape).
  exists t. split; [exact Ht |]. split; [exact Hshape |].
  rewrite Hshape. cbn. discriminate.
Qed.

(* ================================================================= *)
(** ** The scan for the largest probability *)

Section Argmax.

Local Open Scope Q_scope.

(** Scanning [l] with candidate [best] at index [ibest], the next index
    being [i]: either the candidate survives and nothing in [l] exceeds it,
    or the result points into [l], at the first element that is the
    largest, and that element beats the old candidate. *)
Lemma argmax_from_spec (l : list Q) : forall (best : Q) (ibest i : nat),
  (ibest < i)%nat ->
  let r := np.argmax_from best ibest i l in
  let m := np.max_from best l in
  (r = ibest /\ m = best /\ Forall (fun x => x <= best) l) \/
  ((i <= r)%nat /\ nth_error l (r - i) = Some m /\ best < m /\
   Forall (fun x => x <= m) l /\
   forall j x, (j < r - i)%nat -> nth_error l j = Some x -> x < m).
Proof.
  induction l as [| x t IH]; intros best ibest i Hi; cbn zeta.
  - left. repeat split. constructor.
  - cbn [np.argmax_from np.max_from].
    destruct (Qlt_le_dec best x) as [Hlt | Hle].
    + right.
      destruct (IH x i (S i) (Nat.lt_succ_diag_r i))
        as [(Hr & Hm & Hall) | (Hr & Hnth & Hbest & Hall & Hfirst)].
      * rewrite Hr, Hm, Nat.sub_diag. repeat split.
        -- apply Nat.le_refl.
        -- exact Hlt.
        -- constructor; [apply Qle_refl | exact Hall].
        -- intros j y Hj. inversion Hj.
      * set (r := np.argmax_from x i (S i) t) in *.
        set (m := np.max_from x t) in *.
        replace (r - i)%nat with (S (r - S i)) by lia.
        repeat split.
        -- lia.
        -- exact Hnth.
        -- exact (Qlt_trans _ _ _ Hlt Hbest).
        -- constructor; [apply Qlt_le_weak; exact Hbest | exact Hall].
        -- intros [| j] y Hj Hy.
           ++ injection Hy as <-. exact Hbest.
           ++ apply (Hfirst j y); [lia | exact Hy].
    + destruct (IH best ibest (S i) (Nat.lt_lt_succ_r _ _ Hi))
        as [(Hr & Hm & Hall) | (Hr & Hnth & Hbest & Hall & Hfirst)].
      * left. repeat split; try assumption.
        constructor; assumption.
      * right.
        set (r := np.argmax_from best ibest (S i) t) in *.
        set (m := np.max_from best t) in *.
        replace (r - i)%nat with (S (r - S i)) by lia.
        repeat split.
        -- lia.
        -- exact Hnth.
        -- exact Hbest.
        -- constructor;
             [apply Qlt_le_weak; exact (Qle_lt_trans _ _ _ Hle Hbest)
             | exact Hall].
        -- intros [| j] y Hj Hy.
           ++ injection Hy as <-. exact (Qle_lt_trans _ _ _ Hle Hbest).
           ++ apply (Hfirst j y); [lia | exact Hy].
Qed.

(** [np.argmax] and [np.max] of one row: the index is that of the first
    largest element, the value is that element. *)
Lemma argmax_max_row (row : list Q) (id : nat) (conf : Q) :
  np.argmax row = Ok id ->
  np.max [row] = Ok conf ->
  nth_error row id = Some conf /\
  (forall p, In p row -> p <= conf) /\
  (forall j p, (j < id)%nat -> nth_error row j = Some p -> p < conf).
Proof.
  unfold np.argmax, np.max. cbn [concat]. rewrite app_nil_r.
  destruct row as [| x t]; [discriminate |].
  intros Hid Hconf. injection Hid as <-. injection Hconf as <-.
  destruct (argmax_from_spec t x 0%nat 1%nat Nat.lt_0_1)
    as [(Hr & Hm & Hall) | (Hr & Hnth & Hbest & Hall & Hfirst)].
  - rewrite Hr, Hm. repeat split.
    + intros p [<- | Hp]; [apply Qle_refl |].
      rewrite Forall_forall in Hall. now apply Hall.
    + intros j p Hj. inversion Hj.
  - set (r := np.argmax_from x 0 1 t) in *.
    set (m := np.max_from x t) in *.
    destruct r as [| r]; [lia |].
    cbn [nth_error]. replace (S r - 1)%nat with r in * by lia.
    repeat split.
    + exact Hnth.
    + intros p [<- | Hp]; [apply Qlt_le_weak; exact Hbest |].
      rewrite Forall_forall in Hall. now apply Hall.
    + intros [| j] p Hj Hp.
      * injection Hp as <-. exact Hbest.
      * apply (Hfirst j p); [lia | exact Hp].
Qed.

End Argmax.

(* ================================================================= *)
(** ** Claims about inference *)

Lemma outcome_image_prediction (MODEL : option Model) (x : ndarray) :
  outcome (image_prediction MODEL x) =
  match outcome (prediction_body MODEL x) with
  | Ok r => Ok r
  | Raise e => Raise (ValueError ("Prediction failed: " ++ str e))
  end.
Proof.
  unfold image_prediction. rewrite outcome_try_except.
  destruct (outcome (prediction_body MODEL x)); reflexivity.
Qed.

(** A successful call on a loaded model, unfolded: the forward pass, the
    two reductions and the record built from them. *)
Lemma image_prediction_success (m : Model) (x : ndarray)
    (r : prediction_result) :
  outcome (image_prediction (Some m) x) = Ok r ->
  exists prd ids id conf,
    m x = Ok prd /\
    np.argmax_axis1 prd = Ok ids /\
    np.item0 ids = Ok id /\
    np.max prd = Ok conf /\
    r = mk_prediction_result (class_label (Z.of_nat id)) conf (Z.of_nat id) prd.
Proof.
  rewrite outcome_image_prediction.
  unfold prediction_body, MODEL_predict_call.
  rewrite !outcome_bind. cbn [emit outcome snd]. rewrite outcome_lift.
  destruct (m x) as [prd | e] eqn:Hprd; [| discriminate].
  rewrite outcome_bind, outcome_lift.
  destruct (np.argmax_axis1 prd) as [ids | e] eqn:Hids; [| discriminate].
  rewrite outcome_bind, outcome_lift.
  destruct (np.item0 ids) as [id | e] eqn:Hid; [| discriminate].
  rewrite outcome_bind, outcome_lift.
  destruct (np.max prd) as [conf | e] eqn:Hconf; [| discriminate].
  cbv zeta. rewrite outcome_ret. intros H. injection H as <-.
  exists prd, ids, id, conf. repeat split; assumption.
Qed.

Lemma single_row (m : Model) (x : ndarray) (prd : list (list Q)) :
  one_row_per_input m ->
  hd 0 (shape x) = 1 ->
  m x = Ok prd ->
  exists row, prd = [row].
Proof.
  intros Hm Hx Hprd. specialize (Hm x prd Hprd). rewrite Hx in Hm.
  destruct prd as [| row [| ? ?]]; try discriminate. now exists row.
Qed.

(** The call succeeds as soon as the forward pass gives one non-empty
    row. *)
Lemma image_prediction_succeeds (m : Model) (x : ndarray) (p : Q)
    (row : list Q) :
  m x = Ok [p :: row] ->
  exists r, outcome (image_prediction (Some m) x) = Ok r /\
            raw_probabilities r = [p :: row].
Proof.
  intros Hprd. rewrite outcome_image_prediction.
  unfold prediction_body, MODEL_predict_call.
  rewrite !outcome_bind. cbn [emit outcome snd]. rewrite outcome_lift, Hprd.
  cbn. eexists. split; reflexivity.
Qed.

(** C2.  On a prepared tensor -- a batch of one -- a successful call
    returns as [class_id] the index of the first largest entry of the
    probability row of the model, and as [confidence] that entry: no entry
    is larger, and every entry before it is strictly smaller. *)
Theorem image_prediction_argmax (m : Model) (x : ndarray)
    (r : prediction_result) :
  one_row_per_input m ->
  shape x = [1; 150; 150; 3] ->
  outcome (image_prediction (Some m) x) = Ok r ->
  exists (row : list Q) (id : nat),
    m x = Ok [row] /\
    class_id r = Z.of_nat id /\
    nth_error row id = Some (confidence r) /\
    (forall p, In p row -> (p <= confidence r)%Q) /\
    (forall j p, j < id -> nth_error row j = Some p -> (p < confidence r)%Q).
Proof.
  intros Hm Hx Hr.
  destruct (image_prediction_success m x r Hr)
    as (prd & ids & id & conf & Hprd & Hids & Hid & Hconf & ->).
  destruct (single_row m x prd Hm) as (row & ->);
    [now rewrite Hx | exact Hprd |].
  exists row, id. split; [exact Hprd |]. split; [reflexivity |].
  cbn [confidence].
  apply argmax_max_row; [| exact Hconf].
  cbn [np.argmax_axis1] in Hids.
  destruct (np.argmax row) as [i | e]; [| discriminate].
  cbn in Hids. injection Hids as <-. cbn in Hid. exact Hid.
Qed.

(** C3.  With no model loaded the call raises, for every argument, the
    [ValueError] that the guard at the top of the [try] block raises on
    purpose, wrapped by the handler; the only event is the log line, so no
    forward pass is run. *)
Theorem image_prediction_without_model (x : ndarray) :
  prediction_body None x = ([], Raise (ValueError "Model not loaded")) /\
  image_prediction None x =
    ([logger_error "Prediction error: Model not loaded"],
     Raise (ValueError "Prediction failed: Model not loaded")) /\
  (forall y, ~ In (MODEL_predict y) (events (image_prediction None x))) /\
  is_model_loaded None = false.
Proof.
  repeat split.
  intros y [H | []]. discriminate.
Qed.

(** With a model the forward pass is the first thing that happens. *)
Lemma image_prediction_with_model_runs (m : Model) (x : ndarray) :
  exists rest,
    events (image_prediction (Some m) x) = MODEL_predict x :: rest.
Proof.
  unfold image_prediction. rewrite events_try_except.
  unfold prediction_body, MODEL_predict_call.
  rewrite !events_bind, !outcome_bind. cbn [emit events outcome fst snd app].
  destruct (outcome (lift (m x)));
    repeat match goal with
           | |- context [match ?r with Ok _ => _ | Raise _ => _ end] =>
               destruct r
           end; eexists; reflexivity.
Qed.

Lemma constant_model_rows (row : list Q) :
  one_row_per_input (Sample.constant_model row).
Proof.
  intros x prd H. injection H as <-. apply repeat_length.
Qed.

Lemma image_prediction_argmax_witness :
  exists (row : list Q) (id : nat),
    Sample.constant_model Sample.probabilities Sample.zeros = Ok [row] /\
    class_id Sample.ad_result = Z.of_nat id /\
    nth_error row id = Some (confidence Sample.ad_result) /\
    (forall p, In p row -> (p <= confidence Sample.ad_result)%Q) /\
    (forall j p, j < id -> nth_error row j = Some p ->
                 (p < confidence Sample.ad_result)%Q).
Proof.
  apply (image_prediction_argmax
           (Sample.constant_model Sample.probabilities) Sample.zeros
           Sample.ad_result).
  - apply constant_model_rows.
  - reflexivity.
  - vm_compute. reflexivity.
Defined.

(** C4, as stated, fails: for a model that answers with the distribution
    (0.2, 0.5, 0.3), [raw_probabilities] is the list of rows of the batch --
    one row -- and not a triple. *)
Lemma raw_probabilities_is_a_batch :
  exists r,
    outcome (image_prediction
               (Some (Sample.constant_model Sample.probabilities))
               Sample.zeros) = Ok r /\
    raw_probabilities r = [[1 # 5; 1 # 2; 3 # 10]%Q] /\
    List.length (raw_probabilities r) <> 3.
Proof.
  exists Sample.ad_result. split; [vm_compute; reflexivity |].
  split; [reflexivity |]. cbn. discriminate.
Qed.

(** C4, amended.  On a prepared tensor, with a model that answers every
    input with one row that is a distribution over the three classes (three
    entries, sum within 1e-4 of 1), a successful call returns as
    [raw_probabilities] the list holding exactly that row, unchanged and in
    the order of the model's outputs: three entries whose sum is within 1e-4
    of 1. *)
Theorem raw_probabilities_single_row (m : Model) (x : ndarray)
    (r : prediction_result) :
  one_row_per_input m ->
  (forall y prd row, m y = Ok prd -> In row prd ->
                     three_class_distribution row) ->
  shape x = [1; 150; 150; 3] ->
  outcome (image_prediction (Some m) x) = Ok r ->
  exists p0 p1 p2 : Q,
    m x = Ok [[p0; p1; p2]] /\
    raw_probabilities r = [[p0; p1; p2]] /\
    (Qabs (p0 + p1 + p2 - 1) <= 1 # 10000)%Q.
Proof.
  intros Hrows Hdist Hx Hr.
  destruct (image_prediction_success m x r Hr)
    as (prd & ids & id & conf & Hprd & _ & _ & _ & ->).
  destruct (single_row m x prd Hrows) as (row & ->);
    [now rewrite Hx | exact Hprd |].
  destruct (Hdist x [row] row Hprd (or_introl eq_refl)) as (Hlen & Hsum).
  destruct row as [| p0 [| p1 [| p2 [| ? ?]]]]; try discriminate.
  exists p0, p1, p2. split; [exact Hprd |]. split; [reflexivity |].
  cbn [np.sum fold_right] in Hsum.
  setoid_replace (p0 + p1 + p2 - 1)%Q with (p0 + (p1 + (p2 + 0)) - 1)%Q
    by ring.
  exact Hsum.
Qed.

Lemma raw_probabilities_single_row_witness :
  exists p0 p1 p2 : Q,
    Sample.constant_model Sample.probabilities Sample.zeros
      = Ok [[p0; p1; p2]] /\
    raw_probabilities Sample.ad_result = [[p0; p1; p2]] /\
    (Qabs (p0 + p1 + p2 - 1) <= 1 # 10000)%Q.
Proof.
  apply (raw_probabilities_single_row
           (Sample.constant_model Sample.probabilities) Sample.zeros
           Sample.ad_result).
  - apply constant_model_rows.
  - intros y prd row H Hin. injection H as <-.
    apply repeat_spec in Hin. subst row.
    split; [reflexivity | vm_compute; discriminate].
  - reflexivity.
  - vm_compute. reflexivity.
Defined.

(* ================================================================= *)
(** ** Claims about the mapping to descriptions *)

Lemma current_prediction_total (prediction_class : string) :
  current_prediction prediction_class =
  Ok (dict.get String.eqb prediction_details prediction_class control_details).
Proof. reflexivity. Qed.

(** C5.  The description of a class index is defined for every integer:
    0, 1 and 2 give their own entries and every other index -- whose label
    is "Unknown" -- gives the entry of CONTROL.  No lookup on the way can
    fail. *)
Theorem details_of_class_total (id : Z) :
  details_of_class id =
    Ok (if (id =? 0)%Z then control_details
        else if (id =? 1)%Z then ad_details
        else if (id =? 2)%Z then pd_details
        else control_details) /\
  (~ In id [0; 1; 2]%Z ->
   class_label id = "Unknown" /\ details_of_class id = Ok control_details).
Proof.
  assert (Hclosed : details_of_class id =
    Ok (if (id =? 0)%Z then control_details
        else if (id =? 1)%Z then ad_details
        else if (id =? 2)%Z then pd_details
        else control_details)).
  { unfold details_of_class, class_label, dict.get, CLASS_MAPPING.
    cbn [dict.find].
    destruct (id =? 0)%Z; [reflexivity |].
    destruct (id =? 1)%Z; [reflexivity |].
    destruct (id =? 2)%Z; reflexivity. }
  split; [exact Hclosed |].
  intros Hout.
  assert (H0 : (id =? 0)%Z = false) by (apply Z.eqb_neq; intros ->; apply Hout; cbn; auto).
  assert (H1 : (id =? 1)%Z = false) by (apply Z.eqb_neq; intros ->; apply Hout; cbn; auto).
  assert (H2 : (id =? 2)%Z = false) by (apply Z.eqb_neq; intros ->; apply Hout; cbn; auto).
  split.
  - unfold class_label, dict.get, CLASS_MAPPING. cbn [dict.find].
    now rewrite H0, H1, H2.
  - rewrite Hclosed, H0, H1, H2. reflexivity.
Qed.

Lemma details_of_class_total_witness :
  class_label 7 = "Unknown" /\ details_of_class 7 = Ok control_details.
Proof.
  apply (proj2 (details_of_class_total 7)).
  intros [H | [H | [H | []]]]; discriminate H.
Defined.

(* ================================================================= *)
(** ** Further properties of the prediction core *)

(** X1.  What the validator answers is fixed by the number of bands of the
    decoded image: one band is accepted without the colour test; two bands
    make [image_array[:,:,2]] fail, which is logged with the text of NumPy
    and answered with "validation skipped"; with three bands or more the
    colour statistic of the first three, computed in binary64, decides,
    whatever the further bands (alpha) hold. *)
Theorem validate_by_bands (Image_open : list byte -> result Image)
    (file_bytes : list byte) (im : Image) :
  Image_open file_bytes = Ok im ->
  (bands im = 1 ->
   validate_image_for_medical_scan Image_open file_bytes = ([], Ok accepted))
  /\
  (bands im = 2 ->
   validate_image_for_medical_scan Image_open file_bytes =
   ([logger_error
       "Image validation error: index 2 is out of bounds for axis 2 with size 2"],
    Ok skipped)) /\
  (forall n, bands im = 3 + n ->
   exists px,
     pixels im = uint8s px /\
     validate_image_for_medical_scan Image_open file_bytes =
     ([], Ok (if float64.ltb (float64.of_Z 20)
                   (color_diff (uint8s (np.every (3 + n) 0 px))
                               (uint8s (np.every (3 + n) 1 px))
                               (uint8s (np.every (3 + n) 2 px)))
              then rejected else accepted))).
Proof.
  intros Ho. split; [| split].
  - apply validate_single_band. exact Ho.
  - apply validate_two_bands. exact Ho.
  - intros n Hb.
    destruct (several_bands_bytes im) as (px & Hpx);
      [rewrite Hb; discriminate |].
    assert (Hpixels : pixels im = uint8s px)
      by (unfold pixels; now rewrite Hpx).
    exists px. split; [exact Hpixels |].
    rewrite (validate_three_or_more Image_open file_bytes im n Ho Hb), Hpixels.
    reflexivity.
Qed.

Lemma validate_by_bands_witness :
  validate_image_for_medical_scan Raw.open Sample.gray_la =
  ([logger_error
      "Image validation error: index 2 is out of bounds for axis 2 with size 2"],
   Ok skipped).
Proof.
  apply (proj1 (proj2 (validate_by_bands Raw.open Sample.gray_la
                         (mk_Image 1 1 (multi_band 2 (skipn 3 Sample.gray_la)))
                         eq_refl))).
  reflexivity.
Defined.

Section PreprocessorMore.

Variable Image_open : list byte -> result Image.
Variable resize : nat * nat -> Image -> Image.
Variable refusal : cv2.code -> ndarray -> exn.

Local Notation "'validate'" :=
  (validate_image_for_medical_scan Image_open).
Local Notation "'prepare'" :=
  (preprocess_image_from_bytes Image_open resize refusal).

(** X2.  The preprocessor returns an array exactly when the bytes decode,
    the validator answers [is_valid = true] and the resized image is
    convertible: it has neither one nor four bands, or its elements are of a
    type OpenCV converts.  For images with 8-bit bands decoding and the
    colour test are the only two ways to fail. *)
Theorem preprocess_succeeds_iff (file_bytes : list byte) :
  ((exists t, outcome (prepare file_bytes) = Ok t) <->
   (exists im v,
      Image_open file_bytes = Ok im /\
      outcome (validate file_bytes) = Ok v /\ is_valid v = true /\
      convertible (resize (150, 150) im) = true)) /\
  ((forall im, Image_open file_bytes = Ok im ->
      np.dtype_of (pixels (resize (150, 150) im)) = np.uint8) ->
   ((exists t, outcome (prepare file_bytes) = Ok t) <->
    (exists im v,
       Image_open file_bytes = Ok im /\
       outcome (validate file_bytes) = Ok v /\ is_valid v = true))).
Proof.
  assert (Hgen : (exists t, outcome (prepare file_bytes) = Ok t) <->
    (exists im v,
       Image_open file_bytes = Ok im /\
       outcome (validate file_bytes) = Ok v /\ is_valid v = true /\
       convertible (resize (150, 150) im) = true)).
  { split.
    - intros (t & Ht).
      destruct (outcome_prepare_inv _ _ _ _ _ Ht)
        as (v & im & Hv & Hvalid & Ho & Hc & _).
      now exists im, v.
    - intros (im & v & Ho & Hv & Hvalid & Hc).
      eexists. exact (outcome_prepare_accepted _ _ _ _ _ _ Hv Hvalid Ho Hc). }
  split; [exact Hgen |].
  intros H8. rewrite Hgen. split.
  - intros (im & v & Ho & Hv & Hvalid & _). now exists im, v.
  - intros (im & v & Ho & Hv & Hvalid). exists im, v.
    repeat (split; [assumption |]).
    unfold convertible. rewrite (H8 im Ho). now destruct (_ || _).
Qed.

(** X3.  Bytes that do not decode are let through by the validator and
    stopped by the preprocessor: the call raises [ValueError] with the
    decoder's message behind "Failed to preprocess image: ", and the log
    holds two lines, the validator's and then the preprocessor's. *)
Theorem preprocess_undecodable (file_bytes : list byte) (e : exn) :
  Image_open file_bytes = Raise e ->
  prepare file_bytes =
  ([logger_error ("Image validation error: " ++ str e);
    logger_error ("Image preprocessing error: " ++ str e)],
   Raise (ValueError ("Failed to preprocess image: " ++ str e))).
Proof.
  intros He.
  unfold preprocess_image_from_bytes, preprocess_body,
    validate_image_for_medical_scan, validate_body.
  rewrite He. reflexivity.
Qed.

End PreprocessorMore.

Lemma preprocess_succeeds_iff_witness :
  exists t,
    outcome (preprocess_image_from_bytes Raw.open Raw.resize Raw.refusal
               Sample.gray_l)
    = Ok t.
Proof.
  refine (proj2 (proj2 (preprocess_succeeds_iff Raw.open Raw.resize
                          Raw.refusal Sample.gray_l) _) _).
  - intros im Ho. injection Ho as <-. reflexivity.
  - exists (mk_Image 2 1 (single_band (uint8s (skipn 3 Sample.gray_l)))),
      accepted.
    repeat split.
Defined.

Lemma preprocess_undecodable_witness :
  outcome (preprocess_image_from_bytes Raw.open Raw.resize Raw.refusal
             Sample.garbage)
  = Raise (ValueError "Failed to preprocess image: cannot identify image file").
Proof.
  rewrite (preprocess_undecodable Raw.open Raw.resize Raw.refusal
             Sample.garbage
             (Exception "UnidentifiedImageError" "cannot identify image file")
             eq_refl).
  reflexivity.
Defined.

Lemma preprocess_three_channels_iff_witness :
  exists im,
    Raw.open Sample.gray_la = Ok im /\
    (last (shape (tensor_of (Raw.resize (150, 150)
                               (mk_Image 1 1
                                  (multi_band 2 (skipn 3 Sample.gray_la))))))
       0
     = 3 <->
     bands im = 1 \/ bands im = 3 \/ bands im = 4).
Proof.
  apply (preprocess_three_channels_iff Raw.open Raw.resize Raw.refusal
           Raw_resize_size Raw_resize_bands Sample.gray_la).
  apply (outcome_prepare_accepted _ _ _ _ skipped); reflexivity.
Defined.

(* ================================================================= *)
(** ** Further properties of inference *)

(** X5.  When the forward pass raises, [image_prediction] logs the message
    and raises [ValueError] with the message behind "Prediction failed: ";
    and whatever goes wrong in the call, with or without a model, the
    exception that leaves it has that form. *)
Theorem image_prediction_wraps_errors (x : ndarray) :
  (forall (m : Model) (e : exn),
     m x = Raise e ->
     image_prediction (Some m) x =
     ([MODEL_predict x; logger_error ("Prediction error: " ++ str e)],
      Raise (ValueError ("Prediction failed: " ++ str e)))) /\
  (forall (MODEL : option Model) (e : exn),
     outcome (image_prediction MODEL x) = Raise e ->
     exists msg, e = ValueError ("Prediction failed: " ++ msg)).
Proof.
  split.
  - intros m e He.
    unfold image_prediction, prediction_body, MODEL_predict_call.
    rewrite He. reflexivity.
  - intros MODEL e He. rewrite outcome_image_prediction in He.
    destruct (outcome (prediction_body MODEL x)) as [r | e0];
      [discriminate |].
    injection He as <-. now exists (str e0).
Qed.

Lemma image_prediction_wraps_errors_witness :
  outcome (image_prediction
             (Some (fun _ => Raise (ValueError "incompatible shape")))
             Sample.zeros)
  = Raise (ValueError "Prediction failed: incompatible shape").
Proof.
  exact (f_equal snd
           (proj1 (image_prediction_wraps_errors Sample.zeros)
              (fun _ => Raise (ValueError "incompatible shape"))
              (ValueError "incompatible shape") eq_refl)).
Defined.

Lemma argmax_nonempty (row : list Q) (id : nat) :
  np.argmax row = Ok id -> exists p, np.max [row] = Ok p.
Proof.
  unfold np.argmax, np.max. cbn [concat]. rewrite app_nil_r.
  destruct row as [| x t]; [discriminate |]. intros _. eexists. reflexivity.
Qed.

Lemma max_as_row (prd : list (list Q)) (conf : Q) :
  np.max prd = Ok conf ->
  np.max [concat prd] = Ok conf /\ exists j, np.argmax (concat prd) = Ok j.
Proof.
  unfold np.max, np.argmax. cbn [concat]. rewrite app_nil_r.
  destruct (concat prd) as [| x t]; [discriminate |].
  intros H. split; [exact H | eexists; reflexivity].
Qed.

(** X6.  On any batch for which the call succeeds, [class_id] is the index
    of the first largest entry of the FIRST row, while [confidence] is the
    largest entry of ALL rows: it is an entry of the output and no entry of
    any row exceeds it.  On a batch of more than one input the two need not
    belong together. *)
Theorem image_prediction_on_batch (m : Model) (x : ndarray)
    (r : prediction_result) :
  outcome (image_prediction (Some m) x) = Ok r ->
  exists (row : list Q) (rest : list (list Q)) (id : nat) (p : Q),
    m x = Ok (row :: rest) /\
    raw_probabilities r = row :: rest /\
    class_id r = Z.of_nat id /\
    nth_error row id = Some p /\
    (forall q, In q row -> (q <= p)%Q) /\
    (forall j q, j < id -> nth_error row j = Some q -> (q < p)%Q) /\
    In (confidence r) (concat (row :: rest)) /\
    (forall q, In q (concat (row :: rest)) -> (q <= confidence r)%Q).
Proof.
  intros Hr.
  destruct (image_prediction_success m x r Hr)
    as (prd & ids & id & conf & Hprd & Hids & Hid & Hconf & ->).
  destruct prd as [| row rest].
  { cbn in Hids. injection Hids as <-. discriminate. }
  cbn [np.argmax_axis1] in Hids.
  destruct (np.argmax row) as [i | e] eqn:Harg; [| discriminate].
  cbn [result_bind] in Hids.
  destruct (np.argmax_axis1 rest) as [ids' | e]; [| discriminate].
  cbn in Hids. injection Hids as <-. cbn in Hid. injection Hid as <-.
  destruct (argmax_nonempty row i Harg) as (p & Hp).
  destruct (argmax_max_row row i p Harg Hp) as (Hnth & Hall & Hfirst).
  destruct (max_as_row _ _ Hconf) as (Hconf' & j & Hj).
  destruct (argmax_max_row _ j conf Hj Hconf') as (Hnthc & Hallc & _).
  exists row, rest, i, p. cbn [raw_probabilities class_id confidence].
  repeat split; try assumption.
  exact (nth_error_In _ _ Hnthc).
Qed.

Lemma image_prediction_on_batch_witness :
  exists r,
    outcome (image_prediction (Some Sample.two_row_model) Sample.zeros_pair) = Ok r /\
    class_id r = 0%Z /\
    nth_error (hd [] (raw_probabilities r)) 0 = Some (3 # 5)%Q /\
    confidence r = (9 # 10)%Q.
Proof.
  set (r := mk_prediction_result "CONTROL" (9 # 10) 0
              [[3 # 5; 2 # 5; 0]%Q; [1 # 10; 9 # 10; 0]%Q]).
  assert (Hr : outcome (image_prediction (Some Sample.two_row_model)
                          Sample.zeros_pair) = Ok r)
    by (vm_compute; reflexivity).
  destruct (image_prediction_on_batch Sample.two_row_model Sample.zeros_pair r Hr)
    as (row & rest & id & p & _ & Hraw & _).
  exists r. split; [exact Hr |]. split; [reflexivity |].
  split; reflexivity.
Defined.

(** X7.  A forward pass that returns no rows, or a first row without
    entries, makes the call fail with the wrapped NumPy error; no result
    is made up. *)
Theorem image_prediction_empty_output (m : Model) (x : ndarray) :
  (m x = Ok [] ->
   outcome (image_prediction (Some m) x) =
   Raise (ValueError "Prediction failed: index 0 is out of bounds for axis 0 with size 0"))
  /\
  (forall rest, m x = Ok ([] :: rest) ->
   outcome (image_prediction (Some m) x) =
   Raise (ValueError "Prediction failed: attempt to get argmax of an empty sequence")).
Proof.
  split; [intros H | intros rest H];
    unfold image_prediction, prediction_body, MODEL_predict_call;
    rewrite H; reflexivity.
Qed.

Lemma image_prediction_empty_output_witness :
  outcome (image_prediction (Some (fun _ => Ok [])) Sample.zeros) =
  Raise (ValueError "Prediction failed: index 0 is out of bounds for axis 0 with size 0").
Proof.
  apply (proj1 (image_prediction_empty_output (fun _ => Ok []) Sample.zeros)).
  reflexivity.
Defined.

(* ================================================================= *)
(** ** The life cycle of the model *)

(** The texts [load_model] prints. *)
Lemma load_model_raises_from_print (MODEL_PATH : string) (path_exists : bool)
    (keras_load_model : result Model) (stdout_write : string -> result unit)
    (old : option Model) (e' : exn) :
  returned (snd (load_model MODEL_PATH path_exists keras_load_model
                   stdout_write old)) = Raise e' ->
  exists e, stdout_write ("❌ Error loading model: " ++ str e) = Raise e'.
Proof.
  unfold load_model.
  destruct (if negb path_exists then _ else _) as [m | e].
  - destruct (stdout_write "✅ AI Model loaded successfully!") as [[] | e];
      [discriminate |].
    destruct (stdout_write ("❌ Error loading model: " ++ str e)) as [[] | e0]
      eqn:E; [discriminate |].
    cbn. intros H. injection H as <-. now exists e.
  - destruct (stdout_write ("❌ Error loading model: " ++ str e)) as [[] | e0]
      eqn:E; [discriminate |].
    cbn. intros H. injection H as <-. now exists e.
Qed.

(** X8.  [load_model] raises only what [print] raises.  Where the standard
    output takes the text: when the file is missing or Keras fails, the
    global [MODEL] becomes [None] -- also when a model was loaded before, so
    a failed reload unloads -- and the error is printed and logged; when the
    file exists and Keras succeeds, the new model replaces the old one.
    Where [print] raises on the error text, as on a stream whose encoding
    lacks the cross, the call raises, nothing is logged and [MODEL] is not
    reset: it keeps the old value after a failed load, and the new model
    when only the success text could not be printed.  Whenever a call
    leaves [MODEL] at [None], every prediction after it is refused without a
    forward pass. *)
Theorem load_model_outcomes (MODEL_PATH : string)
    (stdout_write : string -> result unit) (old : option Model) :
  (forall keras_load_model,
     let msg := "❌ Error loading model: Model file not found at: "
                ++ MODEL_PATH in
     stdout_write msg = Ok tt ->
     load_model MODEL_PATH false keras_load_model stdout_write old =
     ([print msg; core (logger_error msg)], mk_loaded None (Ok None))) /\
  (forall e,
     let msg := "❌ Error loading model: " ++ str e in
     stdout_write msg = Ok tt ->
     load_model MODEL_PATH true (Raise e) stdout_write old =
     ([print msg; core (logger_error msg)], mk_loaded None (Ok None))) /\
  (forall m,
     stdout_write "✅ AI Model loaded successfully!" = Ok tt ->
     load_model MODEL_PATH true (Ok m) stdout_write old =
     ([print "✅ AI Model loaded successfully!";
       model_logger_info "AI Model loaded successfully!"],
      mk_loaded (Some m) (Ok (Some m)))) /\
  (forall e e',
     stdout_write ("❌ Error loading model: " ++ str e) = Raise e' ->
     load_model MODEL_PATH true (Raise e) stdout_write old =
     ([], mk_loaded old (Raise e'))) /\
  (forall m e e',
     stdout_write "✅ AI Model loaded successfully!" = Raise e ->
     stdout_write ("❌ Error loading model: " ++ str e) = Raise e' ->
     load_model MODEL_PATH true (Ok m) stdout_write old =
     ([], mk_loaded (Some m) (Raise e'))) /\
  (forall path_exists keras_load_model,
     let after := snd (reload_model MODEL_PATH path_exists keras_load_model
                         stdout_write old) in
     (forall e', returned after = Raise e' ->
        exists text, stdout_write text = Raise e') /\
     (forall r, returned after = Ok r -> MODEL_after after = r) /\
     (MODEL_after after = None ->
      forall x,
        image_prediction (MODEL_after after) x =
        ([logger_error "Prediction error: Model not loaded"],
         Raise (ValueError "Prediction failed: Model not loaded")))).
Proof.
  split; [| split; [| split; [| split; [| split]]]].
  - intros keras_load_model msg H. subst msg. unfold load_model.
    cbn [negb str append] in *. rewrite H. reflexivity.
  - intros e msg H. subst msg. unfold load_model. cbn [negb str].
    rewrite H. reflexivity.
  - intros m H. unfold load_model. cbn [negb str]. rewrite H. reflexivity.
  - intros e e' H. unfold load_model. cbn [negb str]. rewrite H.
    reflexivity.
  - intros m e e' H H'. unfold load_model. cbn [negb str]. rewrite H, H'.
    reflexivity.
  - intros path_exists keras_load_model after. split; [| split].
    + intros e' H.
      destruct (load_model_raises_from_print _ _ _ _ _ _ H) as (e & He).
      eexists. exact He.
    + subst after. unfold reload_model, load_model.
      destruct (if negb path_exists then _ else _) as [m | e].
      * destruct (stdout_write "✅ AI Model loaded successfully!")
          as [[] | e].
        -- cbn. intros r H. now injection H as <-.
        -- destruct (stdout_write ("❌ Error loading model: " ++ str e))
             as [[] | e0]; cbn; intros r H;
             [now injection H as <- | discriminate H].
      * destruct (stdout_write ("❌ Error loading model: " ++ str e))
          as [[] | e0]; cbn; intros r H;
          [now injection H as <- | discriminate H].
    + intros H x. rewrite H. reflexivity.
Qed.

Lemma load_model_outcomes_witness :
  (load_model "efficient_net_B0.h5" false
     (Ok (Sample.constant_model Sample.probabilities)) stdout_accepts_all
     (Some (Sample.constant_model Sample.probabilities)) =
   (let msg := "❌ Error loading model: Model file not found at: efficient_net_B0.h5" in
    ([print msg; core (logger_error msg)], mk_loaded None (Ok None)))) /\
  (load_model "efficient_net_B0.h5" true
     (Ok (Sample.constant_model Sample.probabilities)) stdout_ascii None =
   ([], mk_loaded (Some (Sample.constant_model Sample.probabilities))
          (Raise (Exception "UnicodeEncodeError"
                    "'ascii' codec can't encode character")))).
Proof.
  split.
  - apply (proj1 (load_model_outcomes "efficient_net_B0.h5" stdout_accepts_all
                    (Some (Sample.constant_model Sample.probabilities)))).
    reflexivity.
  - apply (proj1 (proj2 (proj2 (proj2 (proj2
             (load_model_outcomes "efficient_net_B0.h5" stdout_ascii None)))))
             _ (Exception "UnicodeEncodeError"
                  "'ascii' codec can't encode character")).
    + reflexivity.
    + reflexivity.
Defined.

(** X9.  The compatibility layer removes the keyword [groups] and nothing
    else: after it [groups] is not among the keyword arguments, every other
    keyword has the value it had, and arguments without [groups] pass
    unchanged. *)
Theorem compatible_kwargs_drops_groups {V : Type} (kwargs : list (string * V)) :
  dict.find String.eqb (compatible_kwargs kwargs) "groups" = None /\
  (forall k, k <> "groups" ->
     dict.find String.eqb (compatible_kwargs kwargs) k
     = dict.find String.eqb kwargs k) /\
  (dict.find String.eqb kwargs "groups" = None ->
   compatible_kwargs kwargs = kwargs).
Proof.
  induction kwargs as [| [k' v] kwargs (IH1 & IH2 & IH3)].
  - repeat split.
  - unfold compatible_kwargs in *. cbn [filter fst].
    destruct (k' =? "groups")%string eqn:Ek; cbn [negb].
    + apply String.eqb_eq in Ek. subst k'. split; [exact IH1 |]. split.
      * intros k Hk. cbn [dict.find].
        destruct (k =? "groups")%string eqn:E;
          [apply String.eqb_eq in E; contradiction | apply IH2; exact Hk].
      * cbn [dict.find]. rewrite String.eqb_refl. discriminate.
    + split; [| split].
      * cbn [dict.find]. rewrite String.eqb_sym, Ek. exact IH1.
      * intros k Hk. cbn [dict.find]. rewrite (IH2 k Hk). reflexivity.
      * cbn [dict.find]. rewrite String.eqb_sym, Ek. intros H.
        now rewrite (IH3 H).
Qed.

Lemma compatible_kwargs_drops_groups_witness :
  compatible_kwargs [("kernel_size", 3%Z); ("groups", 1%Z); ("strides", 2%Z)]
  = [("kernel_size", 3%Z); ("strides", 2%Z)] /\
  compatible_kwargs [("kernel_size", 3%Z)] = [("kernel_size", 3%Z)].
Proof.
  split; [reflexivity |].
  apply (proj2 (proj2 (compatible_kwargs_drops_groups [("kernel_size", 3%Z)]))).
  reflexivity.
Defined.

(* ================================================================= *)
(** ** Strings *)

Lemma prefix_app (s t : string) : String.prefix s (s ++ t) = true.
Proof.
  induction s as [| a s IH]; cbn; [now destruct t |].
  destruct (ascii_dec a a) as [_ | N]; [exact IH | now contradiction N].
Qed.

Lemma prefix_app_l (sub : string) : forall a b,
  String.prefix sub a = true -> String.prefix sub (a ++ b) = true.
Proof.
  induction sub as [| c sub IH]; intros a b H.
  - now destruct (a ++ b).
  - destruct a as [| c' a]; [discriminate |]. cbn in *.
    destruct (ascii_dec c c'); [now apply IH | discriminate].
Qed.

Lemma contains_prefix (sub s : string) :
  String.prefix sub s = true -> pystr.contains sub s = true.
Proof. intros H. destruct s; cbn [pystr.contains]; now rewrite H. Qed.

Lemma contains_app_r (sub a b : string) :
  pystr.contains sub b = true -> pystr.contains sub (a ++ b) = true.
Proof.
  intros H. induction a as [| c a IH]; [exact H |].
  cbn [append pystr.contains]. rewrite IH. now destruct (String.prefix _ _).
Qed.

Lemma contains_app_l (sub a b : string) :
  pystr.contains sub a = true -> pystr.contains sub (a ++ b) = true.
Proof.
  induction a as [| c a IH]; intros H.
  - apply contains_prefix.
    cbn [pystr.contains] in H.
    destruct (String.prefix sub "") eqn:E; [| discriminate].
    now apply prefix_app_l.
  - cbn [pystr.contains] in H. cbn [append pystr.contains].
    destruct (String.prefix sub (String c a)) eqn:E.
    + pose proof (prefix_app_l _ _ b E) as E'. cbn [append] in E'.
      now rewrite E'.
    + rewrite (IH H). now destruct (String.prefix sub (String c (a ++ b))).
Qed.

Lemma contains_dot_cons (c : ascii) (t : string) :
  pystr.contains "." (String c t) = (Ascii.eqb c "." || pystr.contains "." t).
Proof.
  cbn [pystr.contains String.prefix].
  destruct (ascii_dec "." c) as [<- | N].
  - now destruct t.
  - destruct (Ascii.eqb c ".") eqn:E; [| reflexivity].
    apply Ascii.eqb_eq in E. now contradiction N.
Qed.

Lemma rpartition_dot_none (s : string) :
  pystr.rpartition_dot s = None <-> pystr.contains "." s = false.
Proof.
  induction s as [| c t IH].
  - split; reflexivity.
  - rewrite contains_dot_cons. cbn [pystr.rpartition_dot].
    destruct (pystr.rpartition_dot t) as [[b a] |].
    + split; [discriminate |]. intros H.
      apply orb_false_iff in H. destruct H as [_ H].
      apply IH in H. discriminate.
    + rewrite (proj1 IH eq_refl), orb_false_r.
      destruct (Ascii.eqb c "."); split; intros; (reflexivity || discriminate).
Qed.

Lemma rpartition_dot_app (stem ext : string) :
  pystr.contains "." ext = false ->
  pystr.rpartition_dot (stem ++ "." ++ ext) = Some (stem, ext).
Proof.
  intros Hext. apply rpartition_dot_none in Hext.
  induction stem as [| c stem IH].
  - cbn. now rewrite Hext.
  - cbn [append pystr.rpartition_dot].
    cbn [append] in IH. now rewrite IH.
Qed.

(** The index [1] into the split cannot fail: the test for a dot guards
    it. *)
Lemma file_extension_returns (f : string) :
  exists ext, Routes.file_extension f = Ok ext.
Proof.
  unfold Routes.file_extension, pystr.rsplit_dot_1.
  destruct (pystr.contains "." f) eqn:E; [| now exists ""].
  destruct (pystr.rpartition_dot f) as [[b a] |] eqn:Ep.
  - eexists. reflexivity.
  - apply rpartition_dot_none in Ep. congruence.
Qed.

(** X10.  The extension the route reads from a file name: the index [1]
    into the split can never fail; a name without a dot has the extension
    [""]; and for a name [stem.ext], with no dot in [ext], it is [ext] in
    lower case, whatever dots [stem] holds. *)
Theorem file_extension_spec :
  (forall f, exists ext, Routes.file_extension f = Ok ext) /\
  (forall f, pystr.contains "." f = false ->
             Routes.file_extension f = Ok "") /\
  (forall stem ext, pystr.contains "." ext = false ->
     Routes.file_extension (stem ++ "." ++ ext) = Ok (pystr.lower ext)).
Proof.
  split; [exact file_extension_returns | split].
  - intros f H. unfold Routes.file_extension. now rewrite H.
  - intros stem ext H. unfold Routes.file_extension, pystr.rsplit_dot_1.
    rewrite (rpartition_dot_app stem ext H).
    replace (pystr.contains "." (stem ++ "." ++ ext)) with true;
      [reflexivity |].
    symmetry. apply contains_app_r. apply contains_prefix.
    apply (prefix_app "." ext).
Qed.

Lemma file_extension_spec_witness :
  Routes.file_extension "brain.scan.PNG" = Ok "png" /\
  Routes.file_extension "png" = Ok "".
Proof.
  split.
  - apply (proj2 (proj2 file_extension_spec) "brain.scan" "PNG"). reflexivity.
  - apply (proj1 (proj2 file_extension_spec)). reflexivity.
Defined.

(* ================================================================= *)
(** ** The database URL *)

Lemma components_url_has_sslmode (u p h port n : string) :
  pystr.contains "sslmode="
    ("postgresql://" ++ u ++ ":" ++ p ++ "@" ++ h ++ ":" ++ port ++ "/"
     ++ n ++ "?sslmode=require") = true.
Proof. do 10 apply contains_app_r. reflexivity. Qed.

(** X11.  [get_database_url] raises exactly when [DATABASE_URL] is unset
    or empty and one of [DB_HOST], [DB_NAME], [DB_USER], [DB_PASSWORD] is
    unset or empty; the exception is then the [ValueError] about the missing
    configuration. *)
Theorem get_database_url_raises_iff (getenv : string -> option string) :
  ((exists e, UserDb.get_database_url getenv = Raise e) <->
   pystr.falsy (getenv "DATABASE_URL") = true /\
   (pystr.falsy (getenv "DB_HOST") || pystr.falsy (getenv "DB_NAME")
    || pystr.falsy (getenv "DB_USER") || pystr.falsy (getenv "DB_PASSWORD"))
   = true) /\
  (forall e, UserDb.get_database_url getenv = Raise e ->
     e = ValueError "DATABASE_URL environment variable is not set and individual DB components are missing").
Proof.
  unfold UserDb.get_database_url. cbn [forallb].
  destruct (pystr.falsy (getenv "DATABASE_URL")).
  - destruct (pystr.falsy (getenv "DB_HOST")),
             (pystr.falsy (getenv "DB_NAME")),
             (pystr.falsy (getenv "DB_USER")),
             (pystr.falsy (getenv "DB_PASSWORD")); cbn [negb andb orb result_bind];
      try (split; [split; [intros _; now split | intros _; eexists; reflexivity]
                  | intros e H; now injection H as <-]).
    rewrite components_url_has_sslmode. cbn [negb andb].
    split; [split; [intros (e & H); discriminate | intros (_ & H); discriminate]
           | intros e H; discriminate].
  - cbn [result_bind].
    destruct (negb _ && _);
      (split; [split; [intros (e & H); discriminate | intros (H & _); discriminate]
              | intros e H; discriminate]).
Qed.

Lemma get_database_url_raises_iff_witness :
  UserDb.get_database_url (fun _ => None) =
  Raise (ValueError "DATABASE_URL environment variable is not set and individual DB components are missing").
Proof.
  destruct (proj2 (proj1 (get_database_url_raises_iff (fun _ => None)))
              (conj eq_refl eq_refl)) as (e & He).
  rewrite He. f_equal.
  exact (proj2 (get_database_url_raises_iff (fun _ => None)) e He).
Defined.

(** X12.  A URL that [get_database_url] returns and that names
    [neon.tech] always carries an [sslmode=] parameter.  A configured
    [DATABASE_URL] is returned as it is or with [sslmode=require] appended,
    behind [&] when the URL has a [?] and behind [?] otherwise; it is
    returned as it is whenever it already has [sslmode=]. *)
Theorem get_database_url_sslmode (getenv : string -> option string)
    (url : string) :
  UserDb.get_database_url getenv = Ok url ->
  (pystr.contains "neon.tech" url = true ->
   pystr.contains "sslmode=" url = true) /\
  (forall d, getenv "DATABASE_URL" = Some d -> d <> "" ->
     (url = d \/
      (pystr.contains "?" d = false /\ url = d ++ "?sslmode=require") \/
      (pystr.contains "?" d = true /\ url = d ++ "&sslmode=require")) /\
     (pystr.contains "sslmode=" d = true -> url = d)).
Proof.
  unfold UserDb.get_database_url. intros H.
  destruct (pystr.falsy (getenv "DATABASE_URL")) eqn:Ef.
  - destruct (forallb _ _); [| discriminate].
    cbn [result_bind] in H.
    rewrite components_url_has_sslmode in H. cbn [negb andb] in H.
    injection H as <-. split.
    + intros _. apply components_url_has_sslmode.
    + intros d Hd Hne. rewrite Hd in Ef. cbn in Ef.
      apply String.eqb_eq in Ef. contradiction.
  - cbn [result_bind] in H.
    destruct (getenv "DATABASE_URL") as [d0 |] eqn:Hd0; [| discriminate].
    cbn [UserDb.shown] in H.
    destruct (pystr.contains "sslmode=" d0) eqn:Es; cbn [negb andb] in H.
    + injection H as <-. split; [intros _; exact Es |].
      intros d Hd _. injection Hd as <-. split; [now left | reflexivity].
    + destruct (pystr.contains "neon.tech" d0) eqn:En.
      * destruct (pystr.contains "?" d0) eqn:Eq; injection H as <-.
        -- split; [intros _; apply contains_app_r; reflexivity |].
           intros d Hd _. injection Hd as <-.
           split; [right; right; now split | intros X; congruence].
        -- split; [intros _; apply contains_app_r; reflexivity |].
           intros d Hd _. injection Hd as <-.
           split; [right; left; now split | intros X; congruence].
      * injection H as <-. split; [intros Hn; congruence |].
        intros d Hd _. injection Hd as <-. split; [now left | intros X; congruence].
Qed.

Lemma get_database_url_sslmode_witness :
  pystr.contains "sslmode="
    "postgresql://u:p@ep-1.neon.tech/db?options=x&sslmode=require" = true.
Proof.
  apply (proj1 (get_database_url_sslmode
                  (fun k => if (k =? "DATABASE_URL")%string
                            then Some "postgresql://u:p@ep-1.neon.tech/db?options=x"
                            else None)
                  "postgresql://u:p@ep-1.neon.tech/db?options=x&sslmode=require"
                  eq_refl)).
  reflexivity.
Defined.

(** X13.  Without [DATABASE_URL] and with the four components set, the URL
    is assembled from them, with port 5432 unless [DB_PORT] is set, and ends
    in [?sslmode=require] exactly once: the step for [neon.tech] hosts adds
    nothing to it. *)
Theorem get_database_url_from_components (getenv : string -> option string)
    (h n u p : string) :
  pystr.falsy (getenv "DATABASE_URL") = true ->
  getenv "DB_HOST" = Some h -> h <> "" ->
  getenv "DB_NAME" = Some n -> n <> "" ->
  getenv "DB_USER" = Some u -> u <> "" ->
  getenv "DB_PASSWORD" = Some p -> p <> "" ->
  UserDb.get_database_url getenv =
  Ok ("postgresql://" ++ u ++ ":" ++ p ++ "@" ++ h ++ ":"
      ++ match getenv "DB_PORT" with Some port => port | None => "5432" end
      ++ "/" ++ n ++ "?sslmode=require").
Proof.
  intros Hurl Hh Hh' Hn Hn' Hu Hu' Hp Hp'.
  unfold UserDb.get_database_url.
  rewrite Hurl, Hh, Hn, Hu, Hp. cbn [forallb pystr.falsy UserDb.shown].
  apply String.eqb_neq in Hh', Hn', Hu', Hp'.
  rewrite Hh', Hn', Hu', Hp'. cbn [negb andb result_bind].
  rewrite components_url_has_sslmode. reflexivity.
Qed.

Lemma get_database_url_from_components_witness :
  UserDb.get_database_url
    (fun k => if (k =? "DB_HOST")%string then Some "ep-1.neon.tech"
              else if (k =? "DB_NAME")%string then Some "app"
              else if (k =? "DB_USER")%string then Some "me"
              else if (k =? "DB_PASSWORD")%string then Some "pw"
              else None) =
  Ok "postgresql://me:pw@ep-1.neon.tech:5432/app?sslmode=require".
Proof.
  exact (get_database_url_from_components
           (fun k => if (k =? "DB_HOST")%string then Some "ep-1.neon.tech"
                     else if (k =? "DB_NAME")%string then Some "app"
                     else if (k =? "DB_USER")%string then Some "me"
                     else if (k =? "DB_PASSWORD")%string then Some "pw"
                     else None)
           "ep-1.neon.tech" "app" "me" "pw" eq_refl
           eq_refl ltac:(discriminate) eq_refl ltac:(discriminate)
           eq_refl ltac:(discriminate) eq_refl ltac:(discriminate)).
Defined.

(* ================================================================= *)
(** ** Reasoning about the monad of the routes *)

Lemma Eff_outcome_bind {A B : Type} (m : Eff.W A) (k : A -> Eff.W B) :
  Eff.outcome (Eff.bind m k) =
  match Eff.outcome m with
  | Ok a => Eff.outcome (k a)
  | Raise e => Raise e
  end.
Proof.
  destruct m as [t [a | e]]; simpl; [destruct (k a) |]; reflexivity.
Qed.

Lemma Eff_effects_bind {A B : Type} (m : Eff.W A) (k : A -> Eff.W B) :
  Eff.effects (Eff.bind m k) =
  match Eff.outcome m with
  | Ok a => (Eff.effects m ++ Eff.effects (k a))%list
  | Raise _ => Eff.effects m
  end.
Proof.
  destruct m as [t [a | e]]; simpl; [destruct (k a) |]; reflexivity.
Qed.

Lemma Eff_outcome_try_except {A : Type} (body : Eff.W A)
    (handler : exn -> Eff.W A) :
  Eff.outcome (Eff.try_except body handler) =
  match Eff.outcome body with
  | Ok a => Ok a
  | Raise e => Eff.outcome (handler e)
  end.
Proof.
  destruct body as [t [a | e]]; simpl; [| destruct (handler e)]; reflexivity.
Qed.

Lemma Eff_effects_try_except {A : Type} (body : Eff.W A)
    (handler : exn -> Eff.W A) :
  Eff.effects (Eff.try_except body handler) =
  match Eff.outcome body with
  | Ok _ => Eff.effects body
  | Raise e => (Eff.effects body ++ Eff.effects (handler e))%list
  end.
Proof.
  destruct body as [t [a | e]]; simpl; [| destruct (handler e)]; reflexivity.
Qed.

Lemma Eff_outcome_of_core {A : Type} (m : M A) :
  Eff.outcome (Eff.of_core m) = outcome m.
Proof. reflexivity. Qed.

Lemma Eff_effects_of_core {A : Type} (m : M A) :
  Eff.effects (Eff.of_core m) = map core (events m).
Proof. reflexivity. Qed.

Lemma Eff_bind_lift_ok {A B : Type} (a : A) (k : A -> Eff.W B) :
  Eff.bind (Eff.lift (Ok a)) k = k a.
Proof. unfold Eff.bind, Eff.lift. now destruct (k a). Qed.

Lemma Eff_surjective {A : Type} (m : Eff.W A) :
  m = (Eff.effects m, Eff.outcome m).
Proof. now destruct m. Qed.

(* ================================================================= *)
(** ** The database and the health of the server *)

Section ServerClaims.

Variable Engine : Type.
Variable create_engine : string -> result Engine.
Variable select_1 : Engine -> result unit.
Variable create_all : Engine -> result unit.
Variable getenv : string -> option string.

Local Notation "'test_connection'" :=
  (UserDb.test_connection Engine create_engine select_1 getenv).

Lemma outcome_create_database_engine :
  Eff.outcome (UserDb.create_database_engine Engine create_engine getenv) =
  result_bind (UserDb.get_database_url getenv) create_engine.
Proof.
  unfold UserDb.create_database_engine.
  rewrite Eff_outcome_try_except, Eff_outcome_bind. cbn [Eff.lift Eff.outcome snd].
  destruct (UserDb.get_database_url getenv) as [url | e]; cbn [result_bind].
  - destruct (create_engine url); reflexivity.
  - reflexivity.
Qed.

Lemma outcome_test_connection :
  Eff.outcome test_connection =
  Ok match result_bind (UserDb.get_database_url getenv) create_engine with
     | Ok engine => match select_1 engine with
                    | Ok _ => true
                    | Raise _ => false
                    end
     | Raise _ => false
     end.
Proof.
  unfold UserDb.test_connection.
  rewrite Eff_outcome_try_except, Eff_outcome_bind,
    outcome_create_database_engine.
  destruct (result_bind _ _) as [engine | e]; [| reflexivity].
  rewrite Eff_outcome_bind. cbn [Eff.lift Eff.outcome snd].
  destruct (select_1 engine); reflexivity.
Qed.

Lemma connects_iff :
  match result_bind (UserDb.get_database_url getenv) create_engine with
  | Ok engine => match select_1 engine with
                 | Ok _ => true
                 | Raise _ => false
                 end
  | Raise _ => false
  end = true <->
  exists url engine,
    UserDb.get_database_url getenv = Ok url /\
    create_engine url = Ok engine /\ select_1 engine = Ok tt.
Proof.
  destruct (UserDb.get_database_url getenv) as [url | e] eqn:Hu;
    cbn [result_bind].
  - destruct (create_engine url) as [engine | e] eqn:He.
    + destruct (select_1 engine) as [[] | e] eqn:Hs.
      * split; [intros _; now exists url, engine | reflexivity].
      * split; [discriminate |].
        intros (url' & engine' & Hu' & He' & Hs'). congruence.
    + split; [discriminate |].
      intros (url' & engine' & Hu' & He' & _). congruence.
  - split; [discriminate |]. intros (url' & engine' & Hu' & _). discriminate.
Qed.

(** X14.  [/api/health] never fails with an exception and answers 200 or
    503: 200 exactly when the database URL can be worked out, the engine is
    created, [SELECT 1] runs and the model is loaded.  A missing database
    configuration is answered 503 like any other failure. *)
Theorem health_check_status (MODEL : option Model) (now : string) :
  exists body status,
    Eff.outcome (Server.health_check Engine create_engine select_1 getenv
                   MODEL now) = Ok (body, status) /\
    (status = 200 \/ status = 503) /\
    (status = 200 <->
     (exists url engine,
        UserDb.get_database_url getenv = Ok url /\
        create_engine url = Ok engine /\ select_1 engine = Ok tt) /\
     is_model_loaded MODEL = true).
Proof.
  unfold Server.health_check.
  rewrite Eff_outcome_try_except, Eff_outcome_bind, outcome_test_connection.
  cbv zeta. cbn [Eff.ret Eff.outcome snd].
  pose proof connects_iff as Hc.
  destruct (match result_bind _ _ with Ok _ => _ | Raise _ => _ end);
    destruct (is_model_loaded MODEL); cbn [andb];
    eexists; eexists; (split; [reflexivity |]); (split; [auto |]).
  - split; [intros _ | reflexivity]. split; [now apply Hc | reflexivity].
  - split; [discriminate |]. intros (_ & H). discriminate H.
  - split; [discriminate |]. intros (H & _). apply Hc in H. discriminate H.
  - split; [discriminate |]. intros (_ & H). discriminate H.
Qed.

Lemma outcome_create_tables :
  Eff.outcome (UserDb.create_tables Engine create_engine create_all getenv) =
  result_bind (result_bind (UserDb.get_database_url getenv) create_engine)
    create_all.
Proof.
  unfold UserDb.create_tables.
  rewrite Eff_outcome_try_except, Eff_outcome_bind,
    outcome_create_database_engine.
  destruct (result_bind _ _) as [engine | e]; [| reflexivity].
  rewrite Eff_outcome_bind. cbn [Eff.lift Eff.outcome snd result_bind].
  destruct (create_all engine) as [[] | e]; reflexivity.
Qed.

(** X15.  [initialize_database] never raises: it returns [True] exactly
    when the connection test passes and the tables can be created, and
    [False] in every other case. *)
Theorem initialize_database_result :
  exists ok,
    Eff.outcome (Server.initialize_database Engine create_engine select_1
                   create_all getenv) = Ok ok /\
    (ok = true <->
     exists url engine,
       UserDb.get_database_url getenv = Ok url /\
       create_engine url = Ok engine /\
       select_1 engine = Ok tt /\ create_all engine = Ok tt).
Proof.
  unfold Server.initialize_database.
  rewrite Eff_outcome_try_except, Eff_outcome_bind.
  cbn [Eff.emit Eff.outcome snd].
  rewrite Eff_outcome_bind, outcome_test_connection.
  destruct (UserDb.get_database_url getenv) as [url | e] eqn:Hu;
    cbn [result_bind].
  - destruct (create_engine url) as [engine | e] eqn:He.
    + destruct (select_1 engine) as [[] | e] eqn:Hs; cbn [negb].
      * rewrite Eff_outcome_bind. cbn [Eff.emit Eff.outcome snd].
        rewrite Eff_outcome_bind, outcome_create_tables, Hu.
        cbn [result_bind]. rewrite He. cbn [result_bind].
        destruct (create_all engine) as [[] | e] eqn:Hc.
        -- exists true. split; [reflexivity |].
           split; [intros _; now exists url, engine | reflexivity].
        -- exists false. split; [reflexivity |].
           split; [discriminate |].
           intros (url' & engine' & Hu' & He' & _ & Hc'). congruence.
      * exists false. split; [reflexivity |]. split; [discriminate |].
        intros (url' & engine' & Hu' & He' & Hs' & _). congruence.
    + exists false. split; [reflexivity |]. split; [discriminate |].
      intros (url' & engine' & Hu' & He' & _). congruence.
  - exists false. split; [reflexivity |]. split; [discriminate |].
    intros (url' & engine' & Hu' & _). discriminate.
Qed.

End ServerClaims.

(* ================================================================= *)
(** ** The route [/predict] *)

Lemma uploads_nothing_bind {A B : Type} (m : Eff.W A) (k : A -> Eff.W B) :
  uploads_nothing m -> (forall a, uploads_nothing (k a)) ->
  uploads_nothing (Eff.bind m k).
Proof.
  unfold uploads_nothing. intros Hm Hk. rewrite Eff_effects_bind.
  destruct (Eff.outcome m) as [a | e]; [| exact Hm].
  apply Forall_app. split; [exact Hm | apply Hk].
Qed.

Lemma uploads_nothing_lift {A : Type} (r : result A) :
  uploads_nothing (Eff.lift r).
Proof. constructor. Qed.

Lemma uploads_nothing_ret {A : Type} (a : A) : uploads_nothing (Eff.ret a).
Proof. constructor. Qed.

Lemma uploads_nothing_of_core {A : Type} (m : M A) :
  uploads_nothing (Eff.of_core m).
Proof.
  unfold uploads_nothing. rewrite Eff_effects_of_core.
  apply Forall_forall. intros ev Hev.
  apply in_map_iff in Hev. destruct Hev as (e & <- & _). reflexivity.
Qed.

Lemma uploads_nothing_emit (ev : effect) :
  is_upload ev = false -> uploads_nothing (Eff.emit ev).
Proof. intros H. constructor; [exact H | constructor]. Qed.

Lemma answers_bind {A B : Type} (P : B -> Prop) (m : Eff.W A)
    (k : A -> Eff.W B) :
  (forall a b, Eff.outcome (k a) = Ok b -> P b) ->
  forall b, Eff.outcome (Eff.bind m k) = Ok b -> P b.
Proof.
  intros Hk b. rewrite Eff_outcome_bind.
  destruct (Eff.outcome m) as [a | e]; [apply Hk | discriminate].
Qed.

Section RouteClaims.

Variable Image_open : list byte -> result Image.
Variable resize : nat * nat -> Image -> Image.
Variable refusal : cv2.code -> ndarray -> exn.
Variable uploader_upload :
  list byte -> string -> string -> string -> result (list (string * string)).
Variable secure_filename : string -> string.
Variable get_user_by_id : json -> result (option User).
Variable percent : Q -> Q.
Variable format_identity : json -> string.
Variable formats_joined : string.

Local Notation "'predict'" :=
  (Routes.predict Image_open resize refusal uploader_upload secure_filename
     get_user_by_id percent format_identity formats_joined).
Local Notation "'processing'" :=
  (Routes.predict_processing Image_open resize refusal uploader_upload
     secure_filename get_user_by_id percent format_identity).

(** The call that sends the file of a request to Cloudinary. *)
Local Notation "'upload_of' req file" :=
  (cloudinary_uploader_upload (stream file) "medical_ai/scans"
     (now_strftime req ++ "_" ++ secure_filename (filename file)) "image")
  (at level 10, req at level 9, file at level 9).

(** The inner block begins with the upload and uploads nothing else. *)
Lemma processing_effects (MODEL : option Model) (req : predict_request)
    (file : FileStorage) :
  exists rest,
    Eff.effects (processing MODEL req file) = upload_of req file :: rest /\
    Forall (fun ev => is_upload ev = false) rest.
Proof.
  unfold Routes.predict_processing. cbv zeta.
  rewrite Eff_effects_bind. cbn [Eff.emit Eff.outcome Eff.effects fst snd app].
  eexists. split; [reflexivity |].
  repeat (first
    [ apply uploads_nothing_bind; [| intros ?]
    | apply uploads_nothing_lift
    | apply uploads_nothing_ret
    | apply uploads_nothing_of_core
    | apply uploads_nothing_emit; reflexivity ]).
Qed.

(** The inner block either raises or answers 200. *)
Lemma processing_answers_200 (MODEL : option Model) (req : predict_request)
    (file : FileStorage) (r : response) :
  Eff.outcome (processing MODEL req file) = Ok r -> snd r = 200.
Proof.
  revert r. unfold Routes.predict_processing. cbv zeta.
  repeat (apply (answers_bind (fun b : response => snd b = 200)); intros ?).
  intros b Hb. injection Hb as <-. reflexivity.
Qed.

(** Past the four checks the route is its inner block, with every
    exception of the block turned into a 500. *)
Lemma predict_past_guards (MODEL : option Model) (req : predict_request)
    (file : FileStorage) (ext : string) :
  is_model_loaded MODEL = true ->
  files_image req = Some file ->
  filename file <> "" ->
  Routes.file_extension (filename file) = Ok ext ->
  in_formats ext = true ->
  Eff.outcome (predict MODEL req) =
    match Eff.outcome (processing MODEL req file) with
    | Ok r => Ok r
    | Raise e =>
        Ok (error_response "Processing failed"
              ("Failed to process image: " ++ str e) 500)
    end /\
  Eff.effects (predict MODEL req) =
    match Eff.outcome (processing MODEL req file) with
    | Ok _ => Eff.effects (processing MODEL req file)
    | Raise e =>
        (Eff.effects (processing MODEL req file)
         ++ [route_logger_error ("Error processing image: " ++ str e)])%list
    end.
Proof.
  intros Hm Hf Hn Hext Hin. apply String.eqb_neq in Hn.
  unfold Routes.predict.
  rewrite Hm, Hf, Hn, Hext, Eff_bind_lift_ok, Hin. cbn [negb]. split.
  - rewrite !Eff_outcome_try_except.
    destruct (Eff.outcome (processing MODEL req file)); reflexivity.
  - rewrite Eff_effects_try_except, Eff_outcome_try_except,
      Eff_effects_try_except.
    destruct (Eff.outcome (processing MODEL req file)); reflexivity.
Qed.

(** The request as the checks of the route see it: no model, a request
    turned away with 400, or a file handed to the inner block. *)
Lemma predict_cases (MODEL : option Model) (req : predict_request) :
  (is_model_loaded MODEL = false /\
   predict MODEL req =
     ([], Ok (error_response "Model not available"
                "AI model is not loaded. Please contact support." 503))) \/
  (is_model_loaded MODEL = true /\
   exists error message,
     predict MODEL req = ([], Ok (error_response error message 400))) \/
  (is_model_loaded MODEL = true /\
   exists file ext,
     files_image req = Some file /\
     filename file <> "" /\
     Routes.file_extension (filename file) = Ok ext /\
     in_formats ext = true /\
     Eff.outcome (predict MODEL req) =
       match Eff.outcome (processing MODEL req file) with
       | Ok r => Ok r
       | Raise e =>
           Ok (error_response "Processing failed"
                 ("Failed to process image: " ++ str e) 500)
       end /\
     Eff.effects (predict MODEL req) =
       match Eff.outcome (processing MODEL req file) with
       | Ok _ => Eff.effects (processing MODEL req file)
       | Raise e =>
           (Eff.effects (processing MODEL req file)
            ++ [route_logger_error ("Error processing image: " ++ str e)])%list
       end).
Proof.
  destruct (is_model_loaded MODEL) eqn:Hm.
  2:{ left. split; [reflexivity |].
      unfold Routes.predict. rewrite Hm. reflexivity. }
  right.
  destruct (files_image req) as [file |] eqn:Hf.
  2:{ left. split; [reflexivity |].
      unfold Routes.predict. rewrite Hm, Hf. eexists; eexists; reflexivity. }
  destruct (filename file =? "")%string eqn:Hn.
  { left. split; [reflexivity |].
    unfold Routes.predict. rewrite Hm, Hf, Hn.
    eexists; eexists; reflexivity. }
  destruct (file_extension_returns (filename file)) as (ext & Hext).
  destruct (in_formats ext) eqn:Hin.
  - right. split; [reflexivity |]. exists file, ext.
    pose proof Hn as Hn'. apply String.eqb_neq in Hn'.
    repeat (split; [first [reflexivity | assumption] |]).
    now apply (predict_past_guards MODEL req file ext).
  - left. split; [reflexivity |].
    unfold Routes.predict.
    rewrite Hm, Hf, Hn, Hext, Eff_bind_lift_ok, Hin.
    eexists; eexists; reflexivity.
Qed.

(** X16.  The route sends a file to Cloudinary only when the model is
    loaded, a file with a non-empty name came with the request and the
    extension of the name is one of the supported formats; what it sends is
    that file, to the folder of scans. *)
Theorem predict_uploads_only_checked_files (MODEL : option Model)
    (req : predict_request) (sent : list byte) (folder public_id kind : string) :
  In (cloudinary_uploader_upload sent folder public_id kind)
     (Eff.effects (predict MODEL req)) ->
  is_model_loaded MODEL = true /\
  exists file ext,
    files_image req = Some file /\
    filename file <> "" /\
    Routes.file_extension (filename file) = Ok ext /\
    in_formats ext = true /\
    sent = stream file /\ folder = "medical_ai/scans" /\ kind = "image".
Proof.
  intros Hin.
  destruct (predict_cases MODEL req)
    as [(_ & Hp) | [(_ & error & message & Hp)
                   | (Hm & file & ext & Hf & Hn & Hext & Hfmt & _ & Heff)]].
  - rewrite Hp in Hin. contradiction Hin.
  - rewrite Hp in Hin. contradiction Hin.
  - split; [exact Hm |]. exists file, ext.
    repeat (split; [assumption |]).
    destruct (processing_effects MODEL req file) as (rest & Hproc & Hrest).
    rewrite Heff, Hproc in Hin.
    assert (Hcases :
      cloudinary_uploader_upload sent folder public_id kind
        = upload_of req file \/
      In (cloudinary_uploader_upload sent folder public_id kind) rest).
    { destruct (Eff.outcome (processing MODEL req file)) as [r | e].
      - destruct Hin as [H | H]; [left; now symmetry | now right].
      - destruct Hin as [H | H]; [left; now symmetry |].
        apply in_app_or in H. destruct H as [H | [H | []]];
          [now right | discriminate H]. }
    destruct Hcases as [H | H].
    + injection H as -> -> _ ->. now repeat split.
    + rewrite Forall_forall in Hrest. specialize (Hrest _ H). discriminate.
Qed.

(** X17.  [/predict] never lets an exception out: it always answers, with
    status 200, 400, 500 or 503, and with 503 exactly when no model is
    loaded. *)
Theorem predict_always_answers (MODEL : option Model) (req : predict_request) :
  exists body status,
    Eff.outcome (predict MODEL req) = Ok (body, status) /\
    In status [200; 400; 500; 503] /\
    (status = 503 <-> is_model_loaded MODEL = false).
Proof.
  destruct (predict_cases MODEL req)
    as [(Hm & Hp) | [(Hm & error & message & Hp)
                    | (Hm & file & ext & _ & _ & _ & _ & Hout & _)]].
  - rewrite Hp. eexists; eexists. split; [reflexivity |].
    split; [cbn; auto |]. now split.
  - rewrite Hp. eexists; eexists. split; [reflexivity |].
    split; [cbn; auto |]. rewrite Hm. split; discriminate.
  - rewrite Hout.
    destruct (Eff.outcome (processing MODEL req file)) as [[body status] | e]
      eqn:Hproc.
    + apply processing_answers_200 in Hproc. cbn in Hproc. subst status.
      eexists; eexists. split; [reflexivity |].
      split; [cbn; auto |]. rewrite Hm. split; discriminate.
    + eexists; eexists. split; [reflexivity |].
      split; [cbn; auto |]. rewrite Hm. split; discriminate.
Qed.

(** X18.  An image that the validator rejects as a colour photograph has
    already been uploaded to Cloudinary when it is rejected, and the
    rejection is answered with status 500 and the message of the validator
    behind two prefixes. *)
Theorem predict_rejected_photograph (MODEL : option Model)
    (req : predict_request) (file : FileStorage) (ext : string)
    (upload_result : list (string * string)) (image_url : string)
    (v : validation) :
  is_model_loaded MODEL = true ->
  files_image req = Some file ->
  filename file <> "" ->
  Routes.file_extension (filename file) = Ok ext ->
  in_formats ext = true ->
  uploader_upload (stream file) "medical_ai/scans"
    (now_strftime req ++ "_" ++ secure_filename (filename file)) "image"
    = Ok upload_result ->
  dict.getitem String.eqb upload_result "secure_url" "'secure_url'"
    = Ok image_url ->
  outcome (validate_image_for_medical_scan Image_open (stream file)) = Ok v ->
  is_valid v = false ->
  Eff.outcome (predict MODEL req) =
    Ok (error_response "Processing failed"
          ("Failed to process image: Failed to preprocess image: " ++ reason v)
          500) /\
  exists rest,
    Eff.effects (predict MODEL req) = upload_of req file :: rest.
Proof.
  intros Hm Hf Hn Hext Hfmt Hup Hurl Hv Hrej.
  destruct (predict_past_guards MODEL req file ext Hm Hf Hn Hext Hfmt)
    as (Hout & Heff).
  assert (Hproc : Eff.outcome (processing MODEL req file) =
                  Raise (ValueError ("Failed to preprocess image: " ++ reason v))).
  { unfold Routes.predict_processing. cbv zeta.
    rewrite Eff_outcome_bind. cbn [Eff.emit Eff.outcome snd].
    rewrite Eff_outcome_bind. cbn [Eff.lift Eff.outcome snd]. rewrite Hup.
    rewrite Eff_outcome_bind. cbn [Eff.lift Eff.outcome snd]. rewrite Hurl.
    rewrite Eff_outcome_bind. cbn [Eff.emit Eff.outcome snd].
    rewrite Eff_outcome_bind, Eff_outcome_of_core.
    rewrite outcome_prepare, outcome_preprocess_body, Hv, Hrej. reflexivity. }
  rewrite Hout, Heff, Hproc. split; [reflexivity |].
  destruct (processing_effects MODEL req file) as (rest & -> & _).
  eexists. reflexivity.
Qed.

(** X19.  When the upload to Cloudinary fails, the route answers 500 with
    the message of the upload error and does nothing else: the image is
    neither validated nor decoded, and no prediction is made. *)
Theorem predict_upload_failure (MODEL : option Model) (req : predict_request)
    (file : FileStorage) (ext : string) (e : exn) :
  is_model_loaded MODEL = true ->
  files_image req = Some file ->
  filename file <> "" ->
  Routes.file_extension (filename file) = Ok ext ->
  in_formats ext = true ->
  uploader_upload (stream file) "medical_ai/scans"
    (now_strftime req ++ "_" ++ secure_filename (filename file)) "image"
    = Raise e ->
  predict MODEL req =
  ([upload_of req file;
    route_logger_error ("Error processing image: " ++ str e)],
   Ok (error_response "Processing failed"
         ("Failed to process image: " ++ str e) 500)).
Proof.
  intros Hm Hf Hn Hext Hfmt Hup.
  destruct (predict_past_guards MODEL req file ext Hm Hf Hn Hext Hfmt)
    as (Hout & Heff).
  assert (Hproc : processing MODEL req file = ([upload_of req file], Raise e)).
  { unfold Routes.predict_processing. cbv zeta.
    unfold Eff.bind at 1. cbn [Eff.emit].
    unfold Eff.bind at 1. cbn [Eff.lift]. rewrite Hup. reflexivity. }
  rewrite (Eff_surjective (predict MODEL req)), Hout, Heff, Hproc.
  reflexivity.
Qed.

(** X20.  With a model that has fewer than three outputs the prediction
    itself succeeds, but the route then reads three probabilities: the
    request is answered 500, "list index out of range". *)
Theorem predict_needs_three_probabilities (MODEL : option Model)
    (req : predict_request) (file : FileStorage) (ext : string)
    (upload_result : list (string * string)) (image_url : string)
    (image_array : ndarray) (raw_prediction : prediction_result)
    (row : list Q) (rest : list (list Q)) (user : option User) :
  is_model_loaded MODEL = true ->
  files_image req = Some file ->
  filename file <> "" ->
  Routes.file_extension (filename file) = Ok ext ->
  in_formats ext = true ->
  uploader_upload (stream file) "medical_ai/scans"
    (now_strftime req ++ "_" ++ secure_filename (filename file)) "image"
    = Ok upload_result ->
  dict.getitem String.eqb upload_result "secure_url" "'secure_url'"
    = Ok image_url ->
  outcome (preprocess_image_from_bytes Image_open resize refusal
             (stream file))
    = Ok image_array ->
  outcome (image_prediction MODEL image_array) = Ok raw_prediction ->
  raw_probabilities raw_prediction = row :: rest ->
  List.length row < 3 ->
  get_user_by_id (jwt_identity req) = Ok user ->
  Eff.outcome (predict MODEL req) =
    Ok (error_response "Processing failed"
          "Failed to process image: list index out of range" 500).
Proof.
  intros Hm Hf Hn Hext Hfmt Hup Hurl Hprep Hpred Hraw Hlen Huser.
  destruct (predict_past_guards MODEL req file ext Hm Hf Hn Hext Hfmt)
    as (Hout & _).
  assert (Hproc : Eff.outcome (processing MODEL req file) =
                  Raise (IndexError "list index out of range")).
  { unfold Routes.predict_processing. cbv zeta.
    rewrite Eff_outcome_bind. cbn [Eff.emit Eff.outcome snd].
    rewrite Eff_outcome_bind. cbn [Eff.lift Eff.outcome snd]. rewrite Hup.
    rewrite Eff_outcome_bind. cbn [Eff.lift Eff.outcome snd]. rewrite Hurl.
    rewrite Eff_outcome_bind. cbn [Eff.emit Eff.outcome snd].
    rewrite Eff_outcome_bind, Eff_outcome_of_core, Hprep.
    rewrite Eff_outcome_bind, Eff_outcome_of_core, Hpred.
    rewrite Eff_outcome_bind. cbn [Eff.lift Eff.outcome snd]. rewrite Hraw.
    rewrite Eff_outcome_bind. cbn [Eff.lift Eff.outcome snd].
    rewrite current_prediction_total.
    rewrite Eff_outcome_bind. cbn [Eff.lift Eff.outcome snd]. rewrite Huser.
    destruct row as [| a [| b [| c row]]];
      try (cbn [List.length] in Hlen; lia);
      repeat (rewrite Eff_outcome_bind;
              cbn [Eff.lift Eff.outcome snd nth_error]);
      reflexivity. }
  rewrite Hout, Hproc. reflexivity.
Qed.

End RouteClaims.

Lemma predict_uploads_only_checked_files_witness :
  is_model_loaded SampleRoutes.loaded_model = true /\
  exists file ext,
    files_image (SampleRoutes.request "photo.JPG" Sample.red_rgb) = Some file /\
    filename file <> "" /\
    Routes.file_extension (filename file) = Ok ext /\
    in_formats ext = true /\
    Sample.red_rgb = stream file /\
    "medical_ai/scans" = "medical_ai/scans" /\ "image" = "image".
Proof.
  apply (predict_uploads_only_checked_files
           Raw.open Raw.resize Raw.refusal SampleRoutes.uploader_upload
           SampleRoutes.secure_filename SampleRoutes.get_user_by_id
           SampleRoutes.percent SampleRoutes.format_identity
           SampleRoutes.formats_joined SampleRoutes.loaded_model
           (SampleRoutes.request "photo.JPG" Sample.red_rgb)
           Sample.red_rgb "medical_ai/scans" "20240101_120000_photo.JPG").
  vm_compute. left. reflexivity.
Defined.

Lemma predict_rejected_photograph_witness :
  Eff.outcome (SampleRoutes.predict SampleRoutes.loaded_model
                 (SampleRoutes.request "photo.JPG" Sample.red_rgb)) =
  Ok (error_response "Processing failed"
        ("Failed to process image: Failed to preprocess image: "
         ++ color_photograph_reason) 500).
Proof.
  apply (predict_rejected_photograph
           Raw.open Raw.resize Raw.refusal SampleRoutes.uploader_upload
           SampleRoutes.secure_filename SampleRoutes.get_user_by_id
           SampleRoutes.percent SampleRoutes.format_identity
           SampleRoutes.formats_joined SampleRoutes.loaded_model
           (SampleRoutes.request "photo.JPG" Sample.red_rgb)
           (mk_FileStorage "photo.JPG" Sample.red_rgb) "jpg"
           [("public_id", "20240101_120000_photo.JPG");
            ("secure_url",
             "https://res.cloudinary.com/medical_ai/scans/20240101_120000_photo.JPG")]
           "https://res.cloudinary.com/medical_ai/scans/20240101_120000_photo.JPG"
           rejected);
    first [reflexivity | discriminate].
Defined.

Lemma predict_upload_failure_witness :
  Routes.predict Raw.open Raw.resize Raw.refusal SampleRoutes.failing_upload
    SampleRoutes.secure_filename SampleRoutes.get_user_by_id
    SampleRoutes.percent SampleRoutes.format_identity
    SampleRoutes.formats_joined SampleRoutes.loaded_model
    (SampleRoutes.request "scan.png" Sample.gray_l) =
  ([cloudinary_uploader_upload Sample.gray_l "medical_ai/scans"
      "20240101_120000_scan.png" "image";
    route_logger_error "Error processing image: Must supply api_key"],
   Ok (error_response "Processing failed"
         "Failed to process image: Must supply api_key" 500)).
Proof.
  apply (predict_upload_failure
           Raw.open Raw.resize Raw.refusal SampleRoutes.failing_upload
           SampleRoutes.secure_filename SampleRoutes.get_user_by_id
           SampleRoutes.percent SampleRoutes.format_identity
           SampleRoutes.formats_joined SampleRoutes.loaded_model
           (SampleRoutes.request "scan.png" Sample.gray_l)
           (mk_FileStorage "scan.png" Sample.gray_l) "png"
           (Exception "Error" "Must supply api_key"));
    try reflexivity.
  discriminate.
Defined.

Lemma predict_needs_three_probabilities_witness :
  Eff.outcome (SampleRoutes.predict SampleRoutes.two_class_model
                 (SampleRoutes.request "scan.png" Sample.gray_l)) =
  Ok (error_response "Processing failed"
        "Failed to process image: list index out of range" 500).
Proof.
  apply (predict_needs_three_probabilities
           Raw.open Raw.resize Raw.refusal SampleRoutes.uploader_upload
           SampleRoutes.secure_filename SampleRoutes.get_user_by_id
           SampleRoutes.percent SampleRoutes.format_identity
           SampleRoutes.formats_joined SampleRoutes.two_class_model
           (SampleRoutes.request "scan.png" Sample.gray_l)
           (mk_FileStorage "scan.png" Sample.gray_l) "png"
           [("public_id", "20240101_120000_scan.png");
            ("secure_url",
             "https://res.cloudinary.com/medical_ai/scans/20240101_120000_scan.png")]
           "https://res.cloudinary.com/medical_ai/scans/20240101_120000_scan.png"
           (tensor_of (Raw.resize (150, 150)
                         (mk_Image 2 1
                            (single_band (uint8s (skipn 3 Sample.gray_l))))))
           (mk_prediction_result "AD" (3 # 4) 1 [[1 # 4; 3 # 4]%Q])
           [1 # 4; 3 # 4]%Q []
           (Some (mk_User 7 "Ada" "Byron" "ada@example.org" "researcher" true)));
    first [reflexivity | discriminate | (cbn; lia)].
Defined.

(* ================================================================= *)
(** ** The routes [/health] and [/generate-report] *)

(** X21.  The health route of the blueprint reads the global
    [UPLOAD_FOLDER], which the module never defines: whatever the state of
    the model, the [NameError] is caught and the route answers 500
    "unhealthy", never 200 and never 503. *)
Theorem prediction_health_always_500 (MODEL : option Model)
    (upload_folder_exists : bool) (now : string) :
  Routes.prediction_health MODEL upload_folder_exists now =
  ([route_logger_error
      "Prediction health check failed: name 'UPLOAD_FOLDER' is not defined"],
   Ok (JObj [("status", JStr "unhealthy");
             ("service", JStr "prediction_service");
             ("error", JStr "name 'UPLOAD_FOLDER' is not defined");
             ("timestamp", JStr now)],
       500)).
Proof. destruct MODEL; reflexivity. Qed.

Section ReportClaims.

Variable render_and_upload : json -> json -> json -> Eff.W (string * string).

Local Notation "'generate_report'" :=
  (Routes.generate_report render_and_upload).

(** X22.  What [/generate-report] answers before anything is rendered.
    An OPTIONS request is answered 200 without a token.  Otherwise an
    identity that Python counts as false (none, 0, an empty string) is
    answered 401 before the body is read; a body that cannot be read is
    answered 500; a body that counts as false (null, an empty object or
    list, 0, an empty string) is answered 400 "No data provided"; any other
    body that is not an object is answered 500, because it has no [get]; and
    an object whose [results] are missing or count as false is answered 400
    "Missing results".  In none of these cases is the report rendered. *)
Theorem generate_report_checks (method : string) (identity : json)
    (get_json : result json) :
  (method = "OPTIONS" ->
   generate_report method identity get_json =
   ([], Ok (JObj [("status", JStr "ok")], 200))) /\
  (method <> "OPTIONS" ->
   (pyjson.truthy identity = false ->
    generate_report method identity get_json =
    ([], Ok (error_response "Authentication required"
               "Please log in to generate reports" 401))) /\
   (pyjson.truthy identity = true ->
    (forall e, get_json = Raise e ->
       generate_report method identity get_json =
       ([route_logger_error ("Report generation error: " ++ str e)],
        Ok (error_response "Report generation failed" (str e) 500))) /\
    (forall data, get_json = Ok data ->
       (pyjson.truthy data = false ->
        generate_report method identity get_json =
        ([], Ok (error_response "No data provided"
                   "Request body must contain analysis results" 400))) /\
       (pyjson.truthy data = true ->
        (forall fields, data <> JObj fields) ->
        generate_report method identity get_json =
        (let msg := "'" ++ pyjson.type_name data
                    ++ "' object has no attribute 'get'" in
         ([route_logger_error ("Report generation error: " ++ msg)],
          Ok (error_response "Report generation failed" msg 500)))) /\
       (forall fields, data = JObj fields -> fields <> [] ->
        pyjson.truthy (dict.get String.eqb fields "results" JNull) = false ->
        generate_report method identity get_json =
        ([], Ok (error_response "Missing results"
                   "Analysis results are required to generate report" 400)))))).
Proof.
  unfold Routes.generate_report. split.
  - intros ->. reflexivity.
  - intros Hm. apply String.eqb_neq in Hm. rewrite Hm. split.
    + intros ->. reflexivity.
    + intros ->. cbn [negb]. split.
      * intros e ->. reflexivity.
      * intros data ->. rewrite Eff_bind_lift_ok. split; [| split].
        -- intros ->. reflexivity.
        -- intros -> Hobj.
           destruct data; try reflexivity. now contradiction (Hobj fields).
        -- intros fields -> Hne Hres.
           destruct fields as [| f fields]; [contradiction |].
           cbn [pyjson.truthy negb pyjson.get].
           rewrite !Eff_bind_lift_ok, Hres. reflexivity.
Qed.

(** X23.  [/generate-report] never lets an exception out and answers with
    status 200, 400, 401 or 500; when rendering or uploading the report
    raises, the answer is 500 "PDF Generation failed" with the message of
    the exception. *)
Theorem generate_report_always_answers (method : string) (identity : json)
    (get_json : result json) :
  (exists body status,
     Eff.outcome (generate_report method identity get_json)
       = Ok (body, status) /\
     In status [200; 400; 401; 500]) /\
  (forall fields results e,
     method <> "OPTIONS" ->
     pyjson.truthy identity = true ->
     get_json = Ok (JObj fields) ->
     dict.find String.eqb fields "results" = Some results ->
     pyjson.truthy results = true ->
     Eff.outcome (render_and_upload identity results
                    (dict.get String.eqb fields "filename"
                       (JStr "analysis_report.pdf"))) = Raise e ->
     Eff.outcome (generate_report method identity get_json) =
     Ok (error_response "PDF Generation failed" (str e) 500)).
Proof.
  unfold Routes.generate_report. split.
  - destruct (method =? "OPTIONS")%string;
      [eexists; eexists; split; [reflexivity | cbn; auto] |].
    rewrite Eff_outcome_try_except. cbv zeta.
    destruct (pyjson.truthy identity); cbn [negb];
      [| eexists; eexists; split; [reflexivity | cbn; auto]].
    rewrite Eff_outcome_bind. cbn [Eff.lift Eff.outcome snd].
    destruct get_json as [data | e];
      [| eexists; eexists; split; [reflexivity | cbn; auto]].
    destruct (pyjson.truthy data); cbn [negb];
      [| eexists; eexists; split; [reflexivity | cbn; auto]].
    rewrite Eff_outcome_bind. cbn [Eff.lift Eff.outcome snd].
    destruct (pyjson.get data "results" JNull) as [results | e];
      [| eexists; eexists; split; [reflexivity | cbn; auto]].
    rewrite Eff_outcome_bind. cbn [Eff.lift Eff.outcome snd].
    destruct (pyjson.get data "filename" _) as [report_name | e];
      [| eexists; eexists; split; [reflexivity | cbn; auto]].
    destruct (pyjson.truthy results); cbn [negb];
      [| eexists; eexists; split; [reflexivity | cbn; auto]].
    rewrite Eff_outcome_try_except, Eff_outcome_bind.
    destruct (Eff.outcome (render_and_upload _ _ _));
      eexists; eexists; split; try reflexivity; cbn; auto.
  - intros fields results e Hm Hid -> Hfind Hres Hrender.
    apply String.eqb_neq in Hm. rewrite Hm, Hid. cbn [negb].
    rewrite Eff_bind_lift_ok.
    assert (Hne : pyjson.truthy (JObj fields) = true).
    { destruct fields; [discriminate Hfind | reflexivity]. }
    assert (Hget : dict.get String.eqb fields "results" JNull = results)
      by (unfold dict.get; now rewrite Hfind).
    rewrite Hne. cbn [negb pyjson.get]. rewrite !Eff_bind_lift_ok.
    rewrite Hget, Hres. cbn [negb].
    rewrite !Eff_outcome_try_except, Eff_outcome_bind, Hrender.
    reflexivity.
Qed.

End ReportClaims.

Lemma generate_report_checks_witness :
  Routes.generate_report (fun _ _ _ => Eff.ret ("url", "report.pdf"))
    "POST" (JInt 7) (Ok (JList [JStr "results"])) =
  ([route_logger_error
      "Report generation error: 'list' object has no attribute 'get'"],
   Ok (error_response "Report generation failed"
         "'list' object has no attribute 'get'" 500)).
Proof.
  refine (proj1 (proj2 (proj2 (proj2 (proj2
            (generate_report_checks (fun _ _ _ => Eff.ret ("url", "report.pdf"))
               "POST" (JInt 7) (Ok (JList [JStr "results"])))
            _) eq_refl) _ eq_refl)) eq_refl _).
  - discriminate.
  - discriminate.
Defined.

Lemma generate_report_always_answers_witness :
  Eff.outcome
    (Routes.generate_report
       (fun _ _ _ => Eff.raise (Exception "KeyError" "'full_name'"))
       "POST" (JInt 7)
       (Ok (JObj [("results", JObj [("confidence", JInt 1)])]))) =
  Ok (error_response "PDF Generation failed" "'full_name'" 500).
Proof.
  apply (proj2 (generate_report_always_answers
                  (fun _ _ _ => Eff.raise (Exception "KeyError" "'full_name'"))
                  "POST" (JInt 7)
                  (Ok (JObj [("results", JObj [("confidence", JInt 1)])])))
           [("results", JObj [("confidence", JInt 1)])]
           (JObj [("confidence", JInt 1)])
           (Exception "KeyError" "'full_name'"));
    first [reflexivity | discriminate].
Defined.
